(** * MAX31855 thermocouple amplifier driver

    A shallow embedding of [software/adafruit_max31855.py] and the
    properties of its decode-and-compensate pipeline.

    Modelling conventions.
    - A Python [int] is a [Z]; [>>] on it is [Z.shiftr] (arithmetic, i.e.
      rounding towards minus infinity) and [&] is [Z.land].
    - A Python [float] is an IEEE 754 binary64 number, [PrimFloat.float],
      with the round-to-nearest-even operations of the kernel.  Decimal
      literals are rounded to the nearest binary64 value, as Python does.
    - [self.data] is a buffer of exactly four bytes.
    - The SPI device is the environment: the n-th bus transaction delivers
      the n-th frame of a fixed sequence, and the device counts the
      transactions it has served.
    - A method is a function from the object's state to an outcome (a value
      or a raised exception) and the state it leaves behind.
    - [math.pow] and [math.exp] belong to the platform's C library; the
      compensation code is parameterised by them. *)

From Stdlib Require Import ZArith List String Bool Lia.
From Stdlib Require Import Floats Uint63 QArith.
From Stdlib Require Strings.Byte.
Import ListNotations.

Set Warnings "-inexact-float,-notation-for-abbreviation".

Local Open Scope Z_scope.

(** ** Bytes and the four-byte buffer *)

Notation byte := Init.Byte.byte.

(** The value of [data[i]]: an integer in [0, 255]. *)
Definition byte_val (b : byte) : Z := Z.of_N (Strings.Byte.to_N b).

(** [bytearray(4)]: indices 0 to 3. *)
Record bytearray4 : Type := Frame
  { data0 : byte; data1 : byte; data2 : byte; data3 : byte }.

(** ** Python values *)

(** Truth value of an [int] used as a condition. *)
Definition truthy (z : Z) : bool := negb (z =? 0).

(** Conversion of an [int] to a [float]; exact for every [|z| < 2^53],
    which covers every integer the driver converts. *)
Definition float_of_int (z : Z) : float :=
  if z <? 0 then PrimFloat.opp (PrimFloat.of_uint63 (Uint63.of_Z (- z)))
  else PrimFloat.of_uint63 (Uint63.of_Z z).

(** [a / b] on two [int]s (true division), for operands below [2^53]. *)
Definition int_truediv (a b : Z) : float :=
  PrimFloat.div (float_of_int a) (float_of_int b).

(** [a * x] with [a] an [int] and [x] a [float]. *)
Definition int_mul_float (a : Z) (x : float) : float :=
  PrimFloat.mul (float_of_int a) x.

(** The rational number a finite [float] denotes. *)
Definition float_to_Q (x : float) : option Q :=
  match Prim2SF x with
  | S754_zero _ => Some (0 # 1)%Q
  | S754_finite s m e =>
      let v := (inject_Z (Z.pos m) * Qpower (2 # 1) e)%Q in
      Some (if s then Qopp v else v)
  | S754_infinity _ => None
  | S754_nan => None
  end.

(** ** struct.unpack *)

Module struct.

(** One big-endian signed 16-bit field (format character [h] after [>]). *)
Definition unpack_h (hi lo : byte) : Z :=
  let u := Z.lor (Z.shiftl (byte_val hi) 8) (byte_val lo) in
  if u <? 32768 then u else u - 65536.

(** [struct.unpack('>hh', data)]. *)
Definition unpack_hh (data : bytearray4) : Z * Z :=
  (unpack_h (data0 data) (data1 data), unpack_h (data2 data) (data3 data)).

End struct.

(** ** Exceptions and outcomes *)

Inductive exception : Type :=
| RuntimeError (msg : string)
    (* raise RuntimeError("...") *)
| RuntimeError_format (template : string) (arg : float).
    (* raise RuntimeError("...{}".format(arg)) *)

Inductive outcome (A : Type) : Type :=
| Return (a : A)
| Raise (e : exception).
Arguments Return {A} a.
Arguments Raise {A} e.

(** ** The driver object *)

(** [SPIDevice]: the frames the chip will deliver, by transaction number,
    and the number of transactions served so far. *)
Record SPIDevice : Type := mkSPI
  { wire : nat -> bytearray4; transactions : nat }.

Record MAX31855 : Type := mkMAX31855
  { spi_device : SPIDevice; data : bytearray4 }.

(** A method body: state in, outcome and state out. *)
Definition method (A : Type) : Type := MAX31855 -> outcome A * MAX31855.

Definition ret {A} (a : A) : method A := fun self => (Return a, self).

Definition raise {A} (e : exception) : method A := fun self => (Raise e, self).

Definition bind {A B} (m : method A) (k : A -> method B) : method B :=
  fun self =>
    match m self with
    | (Return a, self') => k a self'
    | (Raise e, self') => (Raise e, self')
    end.

Declare Scope method_scope.
Delimit Scope method_scope with method.
Notation "x <- m ;; k" := (bind m (fun x => k))
  (at level 100, m at next level, right associativity) : method_scope.
Notation "m ;; k" := (bind m (fun _ => k))
  (at level 100, right associativity) : method_scope.
Local Open Scope method_scope.

(** [with self.spi_device as spi: spi.readinto(self.data)]: one bus
    transaction, which overwrites the buffer with the next frame. *)
Definition readinto : method unit := fun self =>
  let dev := spi_device self in
  (Return tt,
   {| spi_device :=
        {| wire := wire dev; transactions := S (transactions dev) |};
      data := wire dev (transactions dev) |}).

(** Reading [self.data]. *)
Definition get_data : method bytearray4 :=
  fun self => (Return (data self), self).

(** ** MAX31855._read *)

Definition _read (internal : bool) : method Z :=
  readinto ;;
  d <- get_data ;;
  if truthy (Z.land (byte_val (data3 d)) 0x01) then
    raise (RuntimeError "thermocouple not connected")
  else if truthy (Z.land (byte_val (data3 d)) 0x02) then
    raise (RuntimeError "short circuit to ground")
  else if truthy (Z.land (byte_val (data3 d)) 0x04) then
    raise (RuntimeError "short circuit to power")
  else if truthy (Z.land (byte_val (data1 d)) 0x01) then
    raise (RuntimeError "faulty reading")
  else
    let '(temp, refer) := struct.unpack_hh d in
    let refer := Z.shiftr refer 4 in
    let temp := Z.shiftr temp 2 in
    if internal then ret refer else ret temp.

(** ** MAX31855.temperature and MAX31855.reference_temperature *)

Definition temperature : method float :=
  x <- _read false ;; ret (int_truediv x 4).

Definition reference_temperature : method float :=
  x <- _read true ;; ret (int_mul_float x 0.0625%float).

(** ** MAX31855.temperature_NIST *)

(** [enumerate(t)] *)
Definition enumerate {A} (t : list A) : list (nat * A) :=
  combine (seq 0 (List.length t)) t.

Definition float_of_nat (n : nat) : float := float_of_int (Z.of_nat n).

(** The three inverse-coefficient tuples, in the order of the branches. *)
Definition DCOEF_1 : list float :=
  [ 0.0000000E+00;
    2.5173462E+01;
   -1.1662878E+00;
   -1.0833638E+00;
   -8.9773540E-01;
   -3.7342377E-01;
   -8.6632643E-02;
   -1.0450598E-02;
   -5.1920577E-04 ]%float.

Definition DCOEF_2 : list float :=
  [ 0.000000E+00;
    2.508355E+01;
    7.860106E-02;
   -2.503131E-01;
    8.315270E-02;
   -1.228034E-02;
    9.804036E-04;
   -4.413030E-05;
    1.057734E-06;
   -1.052755E-08 ]%float.

Definition DCOEF_3 : list float :=
  [ -1.318058E+02;
     4.830222E+01;
    -1.646031E+00;
     5.464731E-02;
    -9.650715E-04;
     8.802193E-06;
    -3.110810E-08 ]%float.

(** The [if]/[elif] chain on [VTOTAL]; [None] is the final [else].  The
    [int] 0 is compared as the float 0.0. *)
Definition select_DCOEF (VTOTAL : float) : option (list float) :=
  if ((-5.891 <=? VTOTAL) && (VTOTAL <=? 0))%float then Some DCOEF_1
  else if ((0 <? VTOTAL) && (VTOTAL <=? 20.644))%float then Some DCOEF_2
  else if ((20.644 <? VTOTAL) && (VTOTAL <=? 54.886))%float then Some DCOEF_3
  else None.

Section NIST.

(** [math.pow] and [math.exp], each a function of its float arguments. *)
Variable math_pow : float -> float -> float.
Variable math_exp : float -> float.

(** [VOUT = 0.041276 * (TR - TAMB)] *)
Definition VOUT_of (TR TAMB : float) : float :=
  (0.041276 * (TR - TAMB))%float.

(** The branch taken when [TAMB >= 0]. *)
Definition VREF_nonneg (TAMB : float) : float :=
  (-0.176004136860E-01 +
    0.389212049750E-01 * TAMB +
    0.185587700320E-04 * math_pow TAMB 2 +
   -0.994575928740E-07 * math_pow TAMB 3 +
    0.318409457190E-09 * math_pow TAMB 4 +
   -0.560728448890E-12 * math_pow TAMB 5 +
    0.560750590590E-15 * math_pow TAMB 6 +
   -0.320207200030E-18 * math_pow TAMB 7 +
    0.971511471520E-22 * math_pow TAMB 8 +
   -0.121047212750E-25 * math_pow TAMB 9 +
    0.1185976 * math_exp (-0.1183432E-03
                          * math_pow (TAMB - 0.1269686E+03) 2))%float.

(** The [else] branch. *)
Definition VREF_neg (TAMB : float) : float :=
  ( 0.394501280250E-01 * TAMB +
    0.236223735980E-04 * math_pow TAMB 2 +
   -0.328589067840E-06 * math_pow TAMB 3 +
   -0.499048287770E-08 * math_pow TAMB 4 +
   -0.675090591730E-10 * math_pow TAMB 5 +
   -0.574103274280E-12 * math_pow TAMB 6 +
   -0.310888728940E-14 * math_pow TAMB 7 +
   -0.104516093650E-16 * math_pow TAMB 8 +
   -0.198892668780E-19 * math_pow TAMB 9 +
   -0.163226974860E-22 * math_pow TAMB 10)%float.

(** [if TAMB >= 0: VREF = ... else: VREF = ...]; the [int] 0 is
    compared as the float 0.0. *)
Definition VREF_of (TAMB : float) : float :=
  if (0 <=? TAMB)%float then VREF_nonneg TAMB else VREF_neg TAMB.

(** [VTOTAL = VOUT + VREF] *)
Definition VTOTAL_of (TR TAMB : float) : float :=
  (VOUT_of TR TAMB + VREF_of TAMB)%float.

(** [TEMPERATURE = 0; for n, c in enumerate(DCOEF):
    TEMPERATURE += c * math.pow(VTOTAL, n)]; the first addition turns the
    [int] 0 into the float 0.0. *)
Definition TEMPERATURE_of (DCOEF : list float) (VTOTAL : float) : float :=
  fold_left
    (fun TEMPERATURE '(n, c) =>
       (TEMPERATURE + c * math_pow VTOTAL (float_of_nat n))%float)
    (enumerate DCOEF) 0%float.

Definition temperature_NIST : method float :=
  (TR <- temperature ;;
   TAMB <- reference_temperature ;;
   let VOUT := VOUT_of TR TAMB in
   let VREF := VREF_of TAMB in
   let VTOTAL := (VOUT + VREF)%float in
   match select_DCOEF VTOTAL with
   | Some DCOEF => ret (TEMPERATURE_of DCOEF VTOTAL)
   | None =>
       raise (RuntimeError_format
                "Total thermoelectric voltage out of range:{}" VTOTAL)
   end)%method.


(** ** Vocabulary of the specification *)

(** The frame the next bus transaction delivers. *)
Definition next_frame (self : MAX31855) : bytearray4 :=
  wire (spi_device self) (transactions (spi_device self)).

(** The state one bus transaction leaves behind. *)
Definition after_read (self : MAX31855) : MAX31855 := snd (readinto self).

(** The number of bus transactions a method run adds. *)
Definition transactions_during {A} (m : method A) (self : MAX31855) : Z :=
  Z.of_nat (transactions (spi_device (snd (m self))))
  - Z.of_nat (transactions (spi_device self)).

(** The four device-reported faults. *)
Inductive FaultKind : Type :=
| OpenCircuit | ShortToGround | ShortToPower | GenericFault.

Definition fault_message (k : FaultKind) : string :=
  match k with
  | OpenCircuit => "thermocouple not connected"
  | ShortToGround => "short circuit to ground"
  | ShortToPower => "short circuit to power"
  | GenericFault => "faulty reading"
  end.

Definition FaultError (k : FaultKind) : exception :=
  RuntimeError (fault_message k).

(** The status bit that signals each fault: bits 0, 1, 2 of the reference
    word's low byte (byte 3) and bit 0 of the thermocouple word's low byte
    (byte 1). *)
Definition fault_flag (k : FaultKind) (d : bytearray4) : bool :=
  match k with
  | OpenCircuit => Z.testbit (byte_val (data3 d)) 0
  | ShortToGround => Z.testbit (byte_val (data3 d)) 1
  | ShortToPower => Z.testbit (byte_val (data3 d)) 2
  | GenericFault => Z.testbit (byte_val (data1 d)) 0
  end.

Definition all_faults : list FaultKind :=
  [OpenCircuit; ShortToGround; ShortToPower; GenericFault].

(** Position of a fault in the order of precedence (0 is reported first). *)
Definition precedence (k : FaultKind) : nat :=
  match k with
  | OpenCircuit => 0
  | ShortToGround => 1
  | ShortToPower => 2
  | GenericFault => 3
  end.

(** The fault of highest precedence whose flag is set, if any. *)
Definition first_fault (d : bytearray4) : option FaultKind :=
  find (fun k => fault_flag k d) all_faults.

Definition fault_free (d : bytearray4) : bool :=
  forallb (fun k => negb (fault_flag k d)) all_faults.

(** A 16-bit big-endian word read as a two's complement number. *)
Definition be_int16 (hi lo : byte) : Z :=
  let u := 256 * byte_val hi + byte_val lo in
  if Z.testbit u 15 then u - 2 ^ 16 else u.

Definition thermocouple_word (d : bytearray4) : Z :=
  be_int16 (data0 d) (data1 d).

Definition reference_word (d : bytearray4) : Z :=
  be_int16 (data2 d) (data3 d).

(** [x] is finite and denotes exactly the rational [q]. *)
Definition denotes (x : float) (q : Q) : Prop :=
  match float_to_Q x with
  | Some v => Qeq v q
  | None => False
  end.

(** The same as a test. *)
Definition denotes_b (x : float) (q : Q) : bool :=
  match float_to_Q x with
  | Some v => Qeq_bool v q
  | None => false
  end.

(** [P] holds at [lo], [lo + 1], ..., [lo + n - 1]. *)
Fixpoint holds_from (P : Z -> bool) (lo : Z) (n : nat) : bool :=
  match n with
  | O => true
  | S m => P lo && holds_from P (lo + 1) m
  end.

Definition holds_on_range (P : Z -> bool) (lo n : Z) : bool :=
  holds_from P lo (Z.to_nat n).

(** The partial sum [c 0 * V^0 + ... + c (terms-1) * V^(terms-1)], added
    from the lowest power upward. *)
Fixpoint power_series (pow : float -> float -> float)
    (c : nat -> float) (V : float) (terms : nat) : float :=
  match terms with
  | O => 0%float
  | S n => (power_series pow c V n + c n * pow V (float_of_nat n))%float
  end.

(** The three voltage bands: [-5.891, 0], (0, 20.644] and
    (20.644, 54.886] millivolts. *)
Definition in_band_1 (V : float) : bool := ((-5.891 <=? V) && (V <=? 0))%float.
Definition in_band_2 (V : float) : bool := ((0 <? V) && (V <=? 20.644))%float.
Definition in_band_3 (V : float) : bool :=
  ((20.644 <? V) && (V <=? 54.886))%float.

(** A sum of terms added from left to right, starting with the first. *)
Definition sum_terms (terms : list float) : float :=
  match terms with
  | [] => 0%float
  | first :: rest => fold_left PrimFloat.add rest first
  end.

(** The terms [c1 * T], [c2 * T^2], [c3 * T^3], ... of a polynomial without
    constant term, given its coefficients; the linear term is the plain
    product. *)
Definition poly_terms (pow : float -> float -> float)
    (coef : list float) (T : float) : list float :=
  map (fun '(i, c) =>
         match i with
         | O => (c * T)%float
         | S _ => (c * pow T (float_of_nat (S i)))%float
         end)
      (enumerate coef).

(** The cold-junction polynomial for [TAMB >= 0] as a table: its constant
    term and the coefficients of [TAMB^1] to [TAMB^9]. *)
Definition VREF_nonneg_constant : float := (-0.176004136860E-01)%float.

Definition VREF_nonneg_coefficients : list float :=
  [ 0.389212049750E-01;
    0.185587700320E-04;
   -0.994575928740E-07;
    0.318409457190E-09;
   -0.560728448890E-12;
    0.560750590590E-15;
   -0.320207200030E-18;
    0.971511471520E-22;
   -0.121047212750E-25 ]%float.

(** The exponential correction of the [TAMB >= 0] branch. *)
Definition exponential_term (pow : float -> float -> float)
    (exp : float -> float) (TAMB : float) : float :=
  (0.1185976 * exp (-0.1183432e-3 * pow (TAMB - 126.9686) 2))%float.

(** The cold-junction polynomial for [TAMB < 0]: the coefficients of
    [TAMB^1] to [TAMB^10]; it has no constant term. *)
Definition VREF_neg_coefficients : list float :=
  [ 0.394501280250E-01;
    0.236223735980E-04;
   -0.328589067840E-06;
   -0.499048287770E-08;
   -0.675090591730E-10;
   -0.574103274280E-12;
   -0.310888728940E-14;
   -0.104516093650E-16;
   -0.198892668780E-19;
   -0.163226974860E-22 ]%float.

(** ** A simple C library

    Executable stand-ins for [math.pow] and [math.exp], used to run the
    compensation path on concrete frames. *)

Fixpoint pow_nat (x : float) (n : nat) : float :=
  match n with
  | O => 1%float
  | S k => (x * pow_nat x k)%float
  end.

(** [pow] at the exponents the driver uses, the integers 0 to 10. *)
Definition libm_pow (x y : float) : float :=
  match find (fun n => PrimFloat.eqb (float_of_nat n) y) (seq 0 11) with
  | Some n => pow_nat x n
  | None => PrimFloat.nan
  end.

(** [exp] by a Taylor polynomial on [x / 1024] followed by ten squarings. *)
Definition libm_exp (x : float) : float :=
  let t := (x / 1024)%float in
  let p := fold_right (fun k acc => (1 + t / float_of_nat k * acc)%float)
             1%float (seq 1 12) in
  Nat.iter 10 (fun y => (y * y)%float) p.

(** ** Further vocabulary *)

(** A byte read as a two's complement number. *)
Definition int8 (b : byte) : Z :=
  if byte_val b <? 128 then byte_val b else byte_val b - 256.

(** The readings a fault-free frame stands for. *)
Definition TR_of (d : bytearray4) : float :=
  (float_of_int (Z.shiftr (thermocouple_word d) 2) / 4)%float.

Definition TAMB_of (d : bytearray4) : float :=
  (float_of_int (Z.shiftr (reference_word d) 4) * 0.0625)%float.

(** The span of the three voltage bands together. *)
Definition in_range (V : float) : bool :=
  ((-5.891 <=? V) && (V <=? 54.886))%float.

(** The driver state [after] a call, set against the state [before] it:
    the frames the chip delivers are the same, at least one more
    transaction was served, and the buffer holds the frame of the last
    one. *)
Definition holds_last_frame (before after : MAX31855) : Prop :=
  wire (spi_device after) = wire (spi_device before)
  /\ (transactions (spi_device before) < transactions (spi_device after))%nat
  /\ data after
     = wire (spi_device after) (Nat.pred (transactions (spi_device after))).

(** ** Concrete devices *)

(** A freshly constructed driver (the buffer is [bytearray(4)], all zero)
    on a chip that delivers [first] on the next transaction and [later] on
    every transaction after it. *)
Definition device (first later : bytearray4) : MAX31855 :=
  {| spi_device :=
       {| wire := fun n => match n with O => first | S _ => later end;
          transactions := 0 |};
     data := Frame Byte.x00 Byte.x00 Byte.x00 Byte.x00 |}.

(** Sample frames.  [frame_205_25]: thermocouple word [0x0CD0] (205.0
    degrees), reference word [0x1900] (25.0 degrees), no fault bit.
    [frame_same_raw_TR] and [frame_same_raw_TAMB] differ from it in bits
    the shifts discard and in the word that is not asked for. *)
Definition frame_205_0 : bytearray4 :=
  Frame Byte.x0c Byte.xd0 Byte.x00 Byte.x00.
Definition frame_205_25 : bytearray4 :=
  Frame Byte.x0c Byte.xd0 Byte.x19 Byte.x00.
Definition frame_same_raw_TR : bytearray4 :=
  Frame Byte.x0c Byte.xd2 Byte.x7f Byte.xf0.
Definition frame_same_raw_TAMB : bytearray4 :=
  Frame Byte.x00 Byte.x00 Byte.x19 Byte.x08.
Definition frame_open : bytearray4 :=
  Frame Byte.x0c Byte.xd0 Byte.x19 Byte.x01.
Definition frame_short_ground : bytearray4 :=
  Frame Byte.x0c Byte.xd0 Byte.x19 Byte.x02.

(** Two more sample frames.  [frame_negative]: thermocouple word [0xFFFC]
    (-0.25 degrees), reference word [0xF000] (-16.0 degrees).  [frame_hot]:
    thermocouple word [0x7FFC] (2047.75 degrees), reference word [0x1900]. *)
Definition frame_negative : bytearray4 :=
  Frame Byte.xff Byte.xfc Byte.xf0 Byte.x00.
Definition frame_hot : bytearray4 :=
  Frame Byte.x7f Byte.xfc Byte.x19 Byte.x00.

(** * Properties *)

(** ** Bytes, masks and words *)

Lemma byte_val_range (b : byte) : 0 <= byte_val b < 256.
Proof.
  unfold byte_val.
  pose proof (Strings.Byte.to_N_bounded b) as H.
  lia.
Qed.

(** Masking with a single bit tests that bit. *)
Lemma truthy_land_pow2 (z k : Z) :
  0 <= k -> truthy (Z.land z (2 ^ k)) = Z.testbit z k.
Proof.
  intros Hk. unfold truthy.
  destruct (Z.testbit z k) eqn:E.
  - apply negb_true_iff, Z.eqb_neq. intros H0.
    assert (Hb : Z.testbit (Z.land z (2 ^ k)) k = true)
      by (rewrite Z.land_spec, E, Z.pow2_bits_true by assumption; reflexivity).
    rewrite H0, Z.bits_0 in Hb. discriminate.
  - apply negb_false_iff, Z.eqb_eq, Z.bits_inj'. intros n Hn.
    rewrite Z.land_spec, Z.bits_0.
    destruct (Z.eq_dec k n) as [->|Hne].
    + rewrite E. reflexivity.
    + rewrite (Z.pow2_bits_false k n Hne). apply andb_false_r.
Qed.

Lemma mask_0x01 (z : Z) : truthy (Z.land z 0x01) = Z.testbit z 0.
Proof. apply (truthy_land_pow2 z 0). lia. Qed.

Lemma mask_0x02 (z : Z) : truthy (Z.land z 0x02) = Z.testbit z 1.
Proof. apply (truthy_land_pow2 z 1). lia. Qed.

Lemma mask_0x04 (z : Z) : truthy (Z.land z 0x04) = Z.testbit z 2.
Proof. apply (truthy_land_pow2 z 2). lia. Qed.

(** The high byte shifted left by eight shares no bit with the low byte. *)
Lemma lor_shiftl_8 (h l : Z) :
  0 <= l < 256 -> Z.lor (Z.shiftl h 8) l = 256 * h + l.
Proof.
  intros Hl.
  assert (Hd : Z.land (Z.shiftl h 8) l = 0).
  { apply Z.bits_inj'. intros n Hn.
    rewrite Z.land_spec, Z.bits_0.
    destruct (Z.lt_ge_cases n 8) as [Hlt|Hge].
    - rewrite Z.shiftl_spec_low by assumption. reflexivity.
    - assert (Hz : Z.testbit l n = false).
      { destruct (Z.eq_dec l 0) as [->|Hnz]; [apply Z.bits_0|].
        apply Z.bits_above_log2; [lia|].
        apply Z.log2_lt_pow2; [lia|].
        apply Z.lt_le_trans with (2 ^ 8); [simpl; lia|].
        apply Z.pow_le_mono_r; lia. }
      rewrite Hz. apply andb_false_r. }
  rewrite <- (Z.lxor_lor _ _ Hd), <- (Z.add_nocarry_lxor _ _ Hd).
  rewrite Z.shiftl_mul_pow2 by lia. change (2 ^ 8) with 256. lia.
Qed.

Lemma testbit_15 (u : Z) :
  0 <= u < 65536 -> Z.testbit u 15 = negb (u <? 32768).
Proof.
  intros Hu.
  destruct (Z.ltb_spec u 32768) as [Hlt|Hge]; cbn [negb].
  - destruct (Z.eq_dec u 0) as [->|Hnz]; [reflexivity|].
    apply Z.bits_above_log2; [lia|].
    apply Z.log2_lt_pow2; simpl; lia.
  - apply Z.testbit_true; [lia|].
    change (2 ^ 15) with 32768.
    assert (Hq : u / 32768 = 1)
      by (symmetry; apply (Z.div_unique u 32768 1 (u - 32768)); lia).
    rewrite Hq. reflexivity.
Qed.

(** [struct.unpack] reads two's complement big-endian words. *)
Lemma unpack_h_be_int16 (hi lo : byte) :
  struct.unpack_h hi lo = be_int16 hi lo.
Proof.
  unfold struct.unpack_h, be_int16.
  pose proof (byte_val_range hi) as Hh.
  pose proof (byte_val_range lo) as Hl.
  rewrite lor_shiftl_8 by assumption.
  rewrite testbit_15 by lia.
  change (2 ^ 16) with 65536.
  destruct (256 * byte_val hi + byte_val lo <? 32768); reflexivity.
Qed.

Lemma be_int16_range (hi lo : byte) : -32768 <= be_int16 hi lo < 32768.
Proof.
  unfold be_int16.
  pose proof (byte_val_range hi) as Hh.
  pose proof (byte_val_range lo) as Hl.
  rewrite testbit_15 by lia.
  change (2 ^ 16) with 65536.
  destruct (Z.ltb_spec (256 * byte_val hi + byte_val lo) 32768);
    cbn [negb]; lia.
Qed.

(** ** One frame read *)

(** What [_read] does, in the vocabulary of the specification: the outcome
    is decided by the fresh frame alone, and the device has served one more
    transaction. *)
Lemma _read_correct (internal : bool) (self : MAX31855) :
  _read internal self =
  (match first_fault (next_frame self) with
   | Some k => Raise (FaultError k)
   | None =>
       Return (if internal
               then Z.shiftr (reference_word (next_frame self)) 4
               else Z.shiftr (thermocouple_word (next_frame self)) 2)
   end,
   after_read self).
Proof.
  unfold _read, bind, get_data, after_read, readinto; simpl.
  fold (next_frame self).
  rewrite !mask_0x01, mask_0x02, mask_0x04.
  unfold first_fault, all_faults, find, fault_flag.
  destruct (Z.testbit (byte_val (data3 (next_frame self))) 0); [reflexivity|].
  destruct (Z.testbit (byte_val (data3 (next_frame self))) 1); [reflexivity|].
  destruct (Z.testbit (byte_val (data3 (next_frame self))) 2); [reflexivity|].
  destruct (Z.testbit (byte_val (data1 (next_frame self))) 0); [reflexivity|].
  unfold struct.unpack_hh, reference_word, thermocouple_word.
  rewrite !unpack_h_be_int16.
  destruct internal; reflexivity.
Qed.

Lemma FaultError_inj (k k' : FaultKind) :
  FaultError k = FaultError k' -> k = k'.
Proof. destruct k, k'; simpl; intros H; (reflexivity || discriminate H). Qed.

Lemma fault_free_first_fault (d : bytearray4) :
  fault_free d = true <-> first_fault d = None.
Proof.
  unfold fault_free, first_fault, all_faults; cbn [forallb find].
  destruct (fault_flag OpenCircuit d), (fault_flag ShortToGround d),
    (fault_flag ShortToPower d), (fault_flag GenericFault d);
    cbn [negb andb];
    split; intros H; (reflexivity || discriminate H).
Qed.

(** The first fault is flagged, and nothing of higher precedence is. *)
Lemma first_fault_spec (d : bytearray4) (k : FaultKind) :
  first_fault d = Some k <->
  fault_flag k d = true /\
  forall k', (precedence k' < precedence k)%nat -> fault_flag k' d = false.
Proof.
  unfold first_fault, all_faults; cbn [find]. split.
  - intros H. split.
    + destruct (fault_flag OpenCircuit d) eqn:E0;
        [injection H as <-; exact E0|].
      destruct (fault_flag ShortToGround d) eqn:E1;
        [injection H as <-; exact E1|].
      destruct (fault_flag ShortToPower d) eqn:E2;
        [injection H as <-; exact E2|].
      destruct (fault_flag GenericFault d) eqn:E3;
        [injection H as <-; exact E3|discriminate H].
    + intros k' Hlt.
      destruct (fault_flag OpenCircuit d) eqn:E0;
        [injection H as <-; destruct k'; simpl in Hlt; lia|].
      destruct (fault_flag ShortToGround d) eqn:E1;
        [injection H as <-; destruct k'; simpl in Hlt; (assumption || lia)|].
      destruct (fault_flag ShortToPower d) eqn:E2;
        [injection H as <-; destruct k'; simpl in Hlt; (assumption || lia)|].
      destruct (fault_flag GenericFault d) eqn:E3;
        [injection H as <-; destruct k'; simpl in Hlt; (assumption || lia)
        |discriminate H].
  - intros [Hk Hhi].
    destruct k; simpl in Hhi.
    + rewrite Hk. reflexivity.
    + rewrite (Hhi OpenCircuit) by (simpl; lia). rewrite Hk. reflexivity.
    + rewrite (Hhi OpenCircuit), (Hhi ShortToGround) by (simpl; lia).
      rewrite Hk. reflexivity.
    + rewrite (Hhi OpenCircuit), (Hhi ShortToGround), (Hhi ShortToPower)
        by (simpl; lia).
      rewrite Hk. reflexivity.
Qed.

(** C10: when several fault bits are set in one frame, [_read] raises
    exactly one fault, the set one of highest precedence in the order
    open-circuit, short-to-ground, short-to-power, faulty-reading: it raises
    fault [k] exactly when [k]'s bit is set and no bit of higher precedence
    is. *)
Theorem read_fault_precedence (internal : bool) (self : MAX31855) :
  fst (_read internal self) =
    match find (fun k => fault_flag k (next_frame self))
            [OpenCircuit; ShortToGround; ShortToPower; GenericFault] with
    | Some k => Raise (FaultError k)
    | None =>
        Return (if internal
                then Z.shiftr (reference_word (next_frame self)) 4
                else Z.shiftr (thermocouple_word (next_frame self)) 2)
    end
  /\ forall k,
       fst (_read internal self) = Raise (FaultError k) <->
       (fault_flag k (next_frame self) = true /\
        forall k', (precedence k' < precedence k)%nat ->
                   fault_flag k' (next_frame self) = false).
Proof.
  rewrite _read_correct. cbn [fst]. split; [reflexivity|].
  intros k. rewrite <- first_fault_spec.
  destruct (first_fault (next_frame self)) as [k0|]; split; intros H.
  - assert (Hk : k0 = k) by (apply FaultError_inj; congruence).
    congruence.
  - injection H as ->. reflexivity.
  - discriminate H.
  - discriminate H.
Qed.

(** C3: a frame with a fault bit set makes [_read] fail at once, with no
    data, with a fault whose bit is set in that frame; a frame with a single
    fault bit set makes it fail with the kind of that bit (byte 3 bit 0
    open circuit, bit 1 short to ground, bit 2 short to power, byte 1 bit 0
    faulty reading). *)
Theorem read_fails_on_fault_bit
    (internal : bool) (self : MAX31855) (k : FaultKind) :
  fault_flag k (next_frame self) = true ->
  (exists k',
      fault_flag k' (next_frame self) = true /\
      _read internal self = (Raise (FaultError k'), after_read self))
  /\ ((forall k', k' <> k -> fault_flag k' (next_frame self) = false) ->
      _read internal self = (Raise (FaultError k), after_read self)).
Proof.
  intros Hk. rewrite _read_correct.
  destruct (first_fault (next_frame self)) as [k0|] eqn:E.
  - apply first_fault_spec in E. destruct E as [Hk0 Hhi]. split.
    + exists k0. split; [assumption|reflexivity].
    + intros Honly.
      destruct k, k0; try reflexivity;
        match goal with
        | |- (Raise (FaultError ?b), _) = (Raise (FaultError ?a), _) =>
            rewrite (Honly b) in Hk0 by discriminate; discriminate Hk0
        end.
  - apply fault_free_first_fault in E.
    unfold fault_free, all_faults in E; cbn [forallb] in E.
    destruct k; rewrite Hk in E; cbn [negb andb] in E;
      rewrite ?andb_false_r in E; discriminate E.
Qed.

(** ** The two plain readings *)

Lemma temperature_correct (self : MAX31855) :
  temperature self =
  (match first_fault (next_frame self) with
   | Some k => Raise (FaultError k)
   | None =>
       Return (float_of_int (Z.shiftr (thermocouple_word (next_frame self)) 2)
               / 4)%float
   end,
   after_read self).
Proof.
  unfold temperature, bind. rewrite _read_correct.
  destruct (first_fault (next_frame self)); reflexivity.
Qed.

Lemma reference_temperature_correct (self : MAX31855) :
  reference_temperature self =
  (match first_fault (next_frame self) with
   | Some k => Raise (FaultError k)
   | None =>
       Return (float_of_int (Z.shiftr (reference_word (next_frame self)) 4)
               * 0.0625)%float
   end,
   after_read self).
Proof.
  unfold reference_temperature, bind. rewrite _read_correct.
  destruct (first_fault (next_frame self)); reflexivity.
Qed.

Lemma denotes_b_sound (x : float) (q : Q) : denotes_b x q = true -> denotes x q.
Proof.
  unfold denotes_b, denotes.
  destruct (float_to_Q x); [apply Qeq_bool_eq|discriminate].
Qed.

Lemma holds_on_range_sound (P : Z -> bool) (lo n : Z) :
  holds_on_range P lo n = true ->
  forall k, lo <= k < lo + n -> P k = true.
Proof.
  unfold holds_on_range. intros H k Hk.
  assert (Hn : lo <= k < lo + Z.of_nat (Z.to_nat n)) by lia.
  clear Hk. revert lo H Hn.
  induction (Z.to_nat n) as [|m IH]; intros lo H Hn; [lia|].
  cbn [holds_from] in H. apply andb_true_iff in H. destruct H as [H0 H1].
  destruct (Z.eq_dec k lo) as [->|Hne]; [exact H0|].
  apply (IH (lo + 1)); [exact H1|lia].
Qed.

(** Dividing a 14-bit raw value by four loses nothing. *)
Lemma quarter_exact (k : Z) :
  -8192 <= k < 8192 -> denotes (float_of_int k / 4)%float (k # 4).
Proof.
  intros Hk. apply denotes_b_sound.
  apply (holds_on_range_sound
           (fun k => denotes_b (float_of_int k / 4)%float (k # 4))
           (-8192) 16384); [vm_compute; reflexivity|lia].
Qed.

(** Multiplying a 12-bit raw value by 0.0625 loses nothing. *)
Lemma sixteenth_exact (k : Z) :
  -2048 <= k < 2048 -> denotes (float_of_int k * 0.0625)%float (k # 16).
Proof.
  intros Hk. apply denotes_b_sound.
  apply (holds_on_range_sound
           (fun k => denotes_b (float_of_int k * 0.0625)%float (k # 16))
           (-2048) 4096); [vm_compute; reflexivity|lia].
Qed.

Lemma shiftr_2_range (w : Z) :
  -32768 <= w < 32768 -> -8192 <= Z.shiftr w 2 < 8192.
Proof.
  intros Hw. rewrite Z.shiftr_div_pow2 by lia. change (2 ^ 2) with 4.
  split; [apply Z.div_le_lower_bound|apply Z.div_lt_upper_bound]; lia.
Qed.

Lemma shiftr_4_range (w : Z) :
  -32768 <= w < 32768 -> -2048 <= Z.shiftr w 4 < 2048.
Proof.
  intros Hw. rewrite Z.shiftr_div_pow2 by lia. change (2 ^ 4) with 16.
  split; [apply Z.div_le_lower_bound|apply Z.div_lt_upper_bound]; lia.
Qed.

(** C1: on a frame with no fault bit set, [temperature] returns the
    big-endian signed thermocouple word shifted right arithmetically by 2
    and divided by 4.0, and [reference_temperature] returns the big-endian
    signed reference word shifted right arithmetically by 4 and multiplied
    by 0.0625; both results are exact, that is, they denote the rationals
    raw/4 and raw/16. *)
Theorem plain_readings_exact (self : MAX31855) :
  fault_free (next_frame self) = true ->
  let raw_thermocouple := Z.shiftr (thermocouple_word (next_frame self)) 2 in
  let raw_reference := Z.shiftr (reference_word (next_frame self)) 4 in
  (fst (temperature self) = Return (float_of_int raw_thermocouple / 4.0)%float
   /\ denotes (float_of_int raw_thermocouple / 4.0)%float
        (raw_thermocouple # 4))
  /\
  (fst (reference_temperature self)
     = Return (float_of_int raw_reference * 0.0625)%float
   /\ denotes (float_of_int raw_reference * 0.0625)%float (raw_reference # 16)).
Proof.
  intros Hff raw_t raw_r.
  apply fault_free_first_fault in Hff.
  rewrite temperature_correct, reference_temperature_correct, Hff.
  cbn [fst]. repeat split.
  - apply quarter_exact, shiftr_2_range, be_int16_range.
  - apply sixteenth_exact, shiftr_4_range, be_int16_range.
Qed.

(** C7: on the frame [0x0C 0xD0 0x00 0x00] the thermocouple word is
    [0x0CD0], its shift by 2 is 820 and [temperature] returns exactly 205.0;
    the reference word is 0, its shift by 4 is 0 and
    [reference_temperature] returns exactly 0.0.  On any frame whose
    reference-word low byte is [0x01], [reference_temperature] fails with the
    open-circuit fault and produces no number. *)
Theorem concrete_scenarios (self1 self2 : MAX31855) (b0 b1 b2 : byte) :
  next_frame self1 = Frame Byte.x0c Byte.xd0 Byte.x00 Byte.x00 ->
  next_frame self2 = Frame b0 b1 b2 Byte.x01 ->
  (thermocouple_word (next_frame self1) = 0x0CD0
   /\ Z.shiftr 0x0CD0 2 = 820
   /\ fst (temperature self1) = Return 205.0%float
   /\ reference_word (next_frame self1) = 0x0000
   /\ Z.shiftr 0x0000 4 = 0
   /\ fst (reference_temperature self1) = Return 0.0%float)
  /\ reference_temperature self2
     = (Raise (RuntimeError "thermocouple not connected"), after_read self2).
Proof.
  intros H1 H2. split.
  - rewrite temperature_correct, reference_temperature_correct, H1.
    repeat split.
  - rewrite reference_temperature_correct, H2. reflexivity.
Qed.

(** ** The order on floats *)

Lemma SFcompare_swap (a b : spec_float) :
  SFcompare b a = option_map CompOpp (SFcompare a b).
Proof.
  destruct a as [[]|[]| |[] m1 e1], b as [[]|[]| |[] m2 e2]; try reflexivity;
    cbn [SFcompare option_map]; f_equal;
    change (Pos.compare_cont Eq) with Pos.compare;
    rewrite (Z.compare_antisym e1 e2), (Pos.compare_antisym m1 m2);
    destruct (e1 ?= e2)%Z, (m1 ?= m2)%positive; reflexivity.
Qed.

(** [x < y] excludes [y <= x], and [x <= y] excludes [y < x]. *)
Lemma ltb_not_leb (x y : float) :
  (x <? y)%float = true -> (y <=? x)%float = false.
Proof.
  rewrite FloatAxioms.ltb_spec, FloatAxioms.leb_spec. unfold SFltb, SFleb.
  rewrite (SFcompare_swap (Prim2SF x) (Prim2SF y)).
  destruct (SFcompare (Prim2SF x) (Prim2SF y)) as [[]|]; simpl; congruence.
Qed.

Lemma leb_not_ltb (x y : float) :
  (x <=? y)%float = true -> (y <? x)%float = false.
Proof.
  rewrite FloatAxioms.ltb_spec, FloatAxioms.leb_spec. unfold SFltb, SFleb.
  rewrite (SFcompare_swap (Prim2SF x) (Prim2SF y)).
  destruct (SFcompare (Prim2SF x) (Prim2SF y)) as [[]|]; simpl; congruence.
Qed.

(** Finite floats of one sign compare by exponent, then by mantissa. *)
Ltac lex_order e1 e2 e3 m1 m2 m3 :=
  destruct (Z.compare_spec e1 e2), (Z.compare_spec e2 e3),
    (Z.compare_spec e1 e3);
  try (intros; (reflexivity || discriminate || lia));
  destruct (Pos.compare_spec m1 m2), (Pos.compare_spec m2 m3),
    (Pos.compare_spec m1 m3);
  cbn [CompOpp]; intros; (reflexivity || discriminate || lia).

Lemma SFltb_leb_trans (a b c : spec_float) :
  SFltb a b = true -> SFleb b c = true -> SFltb a c = true.
Proof.
  unfold SFltb, SFleb.
  destruct a as [[]|[]| |[] m1 e1], b as [[]|[]| |[] m2 e2],
    c as [[]|[]| |[] m3 e3];
    cbn [SFcompare]; try (intros; (reflexivity || discriminate));
    change (Pos.compare_cont Eq) with Pos.compare;
    lex_order e1 e2 e3 m1 m2 m3.
Qed.

Lemma SFltb_ltb_trans (a b c : spec_float) :
  SFltb a b = true -> SFltb b c = true -> SFltb a c = true.
Proof.
  unfold SFltb.
  destruct a as [[]|[]| |[] m1 e1], b as [[]|[]| |[] m2 e2],
    c as [[]|[]| |[] m3 e3];
    cbn [SFcompare]; try (intros; (reflexivity || discriminate));
    change (Pos.compare_cont Eq) with Pos.compare;
    lex_order e1 e2 e3 m1 m2 m3.
Qed.

Lemma ltb_leb_trans (x y z : float) :
  (x <? y)%float = true -> (y <=? z)%float = true -> (x <? z)%float = true.
Proof.
  rewrite !FloatAxioms.ltb_spec, FloatAxioms.leb_spec.
  apply SFltb_leb_trans.
Qed.

Lemma ltb_ltb_trans (x y z : float) :
  (x <? y)%float = true -> (y <? z)%float = true -> (x <? z)%float = true.
Proof. rewrite !FloatAxioms.ltb_spec. apply SFltb_ltb_trans. Qed.

(** ** Selecting the inverse-coefficient table *)

(** Two comparisons that would put a larger literal below a smaller one. *)
Ltac float_absurd :=
  match goal with
  | H1 : (?a <? ?v)%float = true, H2 : (?v <=? ?b)%float = true |- _ =>
      let H := fresh in
      pose proof (ltb_leb_trans a v b H1 H2) as H; vm_compute in H;
      discriminate H
  | H1 : (?a <? ?v)%float = true, H2 : (?v <? ?b)%float = true |- _ =>
      let H := fresh in
      pose proof (ltb_ltb_trans a v b H1 H2) as H; vm_compute in H;
      discriminate H
  end.

Lemma select_band_1 (V : float) :
  in_band_1 V = true -> select_DCOEF V = Some DCOEF_1.
Proof. unfold in_band_1, select_DCOEF. intros ->. reflexivity. Qed.

Lemma select_band_2 (V : float) :
  in_band_2 V = true -> select_DCOEF V = Some DCOEF_2.
Proof.
  unfold in_band_2, select_DCOEF. intros H. rewrite H.
  apply andb_true_iff in H. destruct H as [Hlo Hhi].
  rewrite (ltb_not_leb _ _ Hlo), andb_false_r. reflexivity.
Qed.

Lemma select_band_3 (V : float) :
  in_band_3 V = true -> select_DCOEF V = Some DCOEF_3.
Proof.
  unfold in_band_3, select_DCOEF. intros H. rewrite H.
  apply andb_true_iff in H. destruct H as [Hlo Hhi].
  rewrite (ltb_not_leb _ _ Hlo), !andb_false_r.
  destruct (V <=? 0)%float eqn:E0; [float_absurd|].
  rewrite andb_false_r. reflexivity.
Qed.

Lemma select_outside (V : float) :
  in_band_1 V = false -> in_band_2 V = false -> in_band_3 V = false ->
  select_DCOEF V = None.
Proof.
  unfold in_band_1, in_band_2, in_band_3, select_DCOEF.
  intros -> -> ->. reflexivity.
Qed.

Lemma below_all_bands (V : float) :
  (V <? -5.891)%float = true ->
  in_band_1 V = false /\ in_band_2 V = false /\ in_band_3 V = false.
Proof.
  intros H. unfold in_band_1, in_band_2, in_band_3.
  rewrite (ltb_not_leb _ _ H).
  destruct (0 <? V)%float eqn:E0; [float_absurd|].
  destruct (20.644 <? V)%float eqn:E1; [float_absurd|].
  repeat split.
Qed.

Lemma above_all_bands (V : float) :
  (54.886 <? V)%float = true ->
  in_band_1 V = false /\ in_band_2 V = false /\ in_band_3 V = false.
Proof.
  intros H. unfold in_band_1, in_band_2, in_band_3.
  rewrite (ltb_not_leb _ _ H).
  destruct (V <=? 0)%float eqn:E0; [float_absurd|].
  destruct (V <=? 20.644)%float eqn:E1; [float_absurd|].
  rewrite !andb_false_r. repeat split.
Qed.

(** ** The power series *)

Lemma combine_snoc {A B} (l : list A) (l' : list B) (a : A) (b : B) :
  List.length l = List.length l' ->
  combine (l ++ [a]) (l' ++ [b]) = combine l l' ++ [(a, b)].
Proof.
  revert l'. induction l as [|x l IH]; intros [|y l'] H; try discriminate H.
  - reflexivity.
  - simpl. f_equal. apply IH. injection H as H. exact H.
Qed.

Lemma enumerate_snoc {A} (l : list A) (a : A) :
  enumerate (l ++ [a]) = enumerate l ++ [(List.length l, a)].
Proof.
  unfold enumerate. rewrite length_app, Nat.add_1_r, seq_S.
  apply combine_snoc. apply length_seq.
Qed.

Lemma power_series_ext (pow : float -> float -> float)
    (c c' : nat -> float) (V : float) (terms : nat) :
  (forall n, (n < terms)%nat -> c n = c' n) ->
  power_series pow c V terms = power_series pow c' V terms.
Proof.
  induction terms as [|k IH]; intros H; [reflexivity|].
  cbn [power_series]. rewrite IH by (intros n Hn; apply H; lia).
  rewrite (H k) by lia. reflexivity.
Qed.

(** The loop over [enumerate(DCOEF)] adds the terms [c_n * VTOTAL^n] in
    the order n = 0, 1, 2, ... *)
Lemma TEMPERATURE_of_power_series (DCOEF : list float) (V : float) :
  TEMPERATURE_of DCOEF V =
  power_series math_pow (fun n => nth n DCOEF 0%float) V (List.length DCOEF).
Proof.
  induction DCOEF as [|c l IH] using rev_ind; [reflexivity|].
  unfold TEMPERATURE_of in *.
  rewrite enumerate_snoc, fold_left_app, length_app, Nat.add_1_r.
  cbn [fold_left power_series]. rewrite IH, nth_middle.
  f_equal. apply power_series_ext. intros n Hn.
  symmetry. apply app_nth1. exact Hn.
Qed.

(** ** The compensated reading *)

(** The tail of [temperature_NIST], after both readings are in hand. *)
Lemma temperature_NIST_step (self s1 s2 : MAX31855) (TR TAMB : float) :
  temperature self = (Return TR, s1) ->
  reference_temperature s1 = (Return TAMB, s2) ->
  temperature_NIST self =
  (match select_DCOEF (VTOTAL_of TR TAMB) with
   | Some DCOEF => Return (TEMPERATURE_of DCOEF (VTOTAL_of TR TAMB))
   | None =>
       Raise (RuntimeError_format
                "Total thermoelectric voltage out of range:{}"
                (VTOTAL_of TR TAMB))
   end, s2).
Proof.
  intros HT HR.
  unfold temperature_NIST, bind. rewrite HT, HR.
  fold (VTOTAL_of TR TAMB).
  destruct (select_DCOEF (VTOTAL_of TR TAMB)); reflexivity.
Qed.

Lemma temperature_NIST_first_fault (self s1 : MAX31855) (e : exception) :
  temperature self = (Raise e, s1) ->
  temperature_NIST self = (Raise e, s1).
Proof.
  intros HT. unfold temperature_NIST, bind. rewrite HT. reflexivity.
Qed.

Lemma temperature_NIST_second_fault
    (self s1 s2 : MAX31855) (TR : float) (e : exception) :
  temperature self = (Return TR, s1) ->
  reference_temperature s1 = (Raise e, s2) ->
  temperature_NIST self = (Raise e, s2).
Proof.
  intros HT HR. unfold temperature_NIST, bind.
  rewrite HT, HR. reflexivity.
Qed.

(** A raised fault does not depend on which field was asked for. *)
Lemma _read_raise_inv (internal : bool) (self s' : MAX31855) (e : exception) :
  _read internal self = (Raise e, s') ->
  exists k, first_fault (next_frame self) = Some k
            /\ e = FaultError k /\ s' = after_read self.
Proof.
  rewrite _read_correct.
  destruct (first_fault (next_frame self)) as [k|]; intros H.
  - exists k. injection H as <- <-. repeat split.
  - discriminate H.
Qed.

(** C6: a frame read that reports a fault makes [temperature],
    [reference_temperature] and [temperature_NIST] fail with that same
    fault, whether it is the read for TR or, in [temperature_NIST], the
    read for TAMB that follows a good read for TR; none of them returns a
    number in its place. *)
Theorem faults_propagate
    (internal : bool) (self s' : MAX31855) (e : exception) :
  _read internal self = (Raise e, s') ->
  (temperature self = (Raise e, s')
   /\ reference_temperature self = (Raise e, s')
   /\ temperature_NIST self = (Raise e, s'))
  /\ (forall s0 TR, temperature s0 = (Return TR, self) ->
                    temperature_NIST s0 = (Raise e, s'))
  /\ (forall x, fst (temperature self) <> Return x
                /\ fst (reference_temperature self) <> Return x
                /\ fst (temperature_NIST self) <> Return x)
  /\ (forall s0 TR x, temperature s0 = (Return TR, self) ->
                      fst (temperature_NIST s0) <> Return x).
Proof.
  intros H. apply _read_raise_inv in H.
  destruct H as (k & Hk & -> & ->).
  assert (HT : temperature self = (Raise (FaultError k), after_read self))
    by (rewrite temperature_correct, Hk; reflexivity).
  assert (HR : reference_temperature self
               = (Raise (FaultError k), after_read self))
    by (rewrite reference_temperature_correct, Hk; reflexivity).
  pose proof (temperature_NIST_first_fault _ _ _ HT) as HN.
  repeat split; try assumption.
  - intros s0 TR H0. exact (temperature_NIST_second_fault _ _ _ _ _ H0 HR).
  - rewrite HT. discriminate.
  - rewrite HR. discriminate.
  - rewrite HN. discriminate.
  - intros s0 TR x H0.
    rewrite (temperature_NIST_second_fault _ _ _ _ _ H0 HR). discriminate.
Qed.

(** C2: [temperature_NIST] picks the inverse-coefficient table by the
    band that holds VTOTAL: [-5.891, 0] gives the 9-term table, (0, 20.644]
    the 10-term table, (20.644, 54.886] the 7-term table; a VTOTAL outside
    all three bands (below -5.891, above 54.886, e.g. -5.892 or 54.887)
    makes the call fail with the out-of-range error that carries VTOTAL;
    at the boundary values -5.891 and 0 the first table is used, at 20.644
    the second, at 54.886 the third. *)
Theorem inverse_table_selection
    (self s1 s2 : MAX31855) (TR TAMB : float) :
  temperature self = (Return TR, s1) ->
  reference_temperature s1 = (Return TAMB, s2) ->
  let VTOTAL := VTOTAL_of TR TAMB in
  let out_of_range :=
    (Raise (RuntimeError_format
              "Total thermoelectric voltage out of range:{}" VTOTAL), s2) in
  ((in_band_1 VTOTAL = true ->
    temperature_NIST self = (Return (TEMPERATURE_of DCOEF_1 VTOTAL), s2))
   /\ (in_band_2 VTOTAL = true ->
       temperature_NIST self = (Return (TEMPERATURE_of DCOEF_2 VTOTAL), s2))
   /\ (in_band_3 VTOTAL = true ->
       temperature_NIST self = (Return (TEMPERATURE_of DCOEF_3 VTOTAL), s2)))
  /\ (List.length DCOEF_1 = 9%nat /\ List.length DCOEF_2 = 10%nat
      /\ List.length DCOEF_3 = 7%nat)
  /\ ((in_band_1 VTOTAL = false -> in_band_2 VTOTAL = false ->
       in_band_3 VTOTAL = false -> temperature_NIST self = out_of_range)
      /\ ((VTOTAL <? -5.891)%float = true ->
          temperature_NIST self = out_of_range)
      /\ ((54.886 <? VTOTAL)%float = true ->
          temperature_NIST self = out_of_range)
      /\ (VTOTAL = (-5.892)%float -> temperature_NIST self = out_of_range)
      /\ (VTOTAL = 54.887%float -> temperature_NIST self = out_of_range))
  /\ ((VTOTAL = (-5.891)%float ->
       temperature_NIST self = (Return (TEMPERATURE_of DCOEF_1 VTOTAL), s2))
      /\ (VTOTAL = 0%float ->
          temperature_NIST self = (Return (TEMPERATURE_of DCOEF_1 VTOTAL), s2))
      /\ (VTOTAL = 20.644%float ->
          temperature_NIST self = (Return (TEMPERATURE_of DCOEF_2 VTOTAL), s2))
      /\ (VTOTAL = 54.886%float ->
          temperature_NIST self
          = (Return (TEMPERATURE_of DCOEF_3 VTOTAL), s2))).
Proof.
  intros HT HR VTOTAL out_of_range.
  rewrite (temperature_NIST_step _ _ _ _ _ HT HR). fold VTOTAL.
  assert (Hout : in_band_1 VTOTAL = false -> in_band_2 VTOTAL = false ->
                 in_band_3 VTOTAL = false ->
                 select_DCOEF VTOTAL = None)
    by apply select_outside.
  repeat split.
  - intros H. rewrite (select_band_1 _ H). reflexivity.
  - intros H. rewrite (select_band_2 _ H). reflexivity.
  - intros H. rewrite (select_band_3 _ H). reflexivity.
  - intros H1 H2 H3. rewrite (Hout H1 H2 H3). reflexivity.
  - intros H. destruct (below_all_bands _ H) as (H1 & H2 & H3).
    rewrite (Hout H1 H2 H3). reflexivity.
  - intros H. destruct (above_all_bands _ H) as (H1 & H2 & H3).
    rewrite (Hout H1 H2 H3). reflexivity.
  - intros H. unfold out_of_range. rewrite H. reflexivity.
  - intros H. unfold out_of_range. rewrite H. reflexivity.
  - intros H. rewrite H. reflexivity.
  - intros H. rewrite H. reflexivity.
  - intros H. rewrite H. reflexivity.
  - intros H. rewrite H. reflexivity.
Qed.

(** C4: [temperature_NIST] computes VOUT = 0.041276 * (TR - TAMB) and
    VTOTAL = VOUT + VREF, and returns the sum of c_n * VTOTAL^n over the
    selected table, n running from 0 upward. *)
Theorem nist_power_series
    (self s1 s2 : MAX31855) (TR TAMB : float) (DCOEF : list float) :
  temperature self = (Return TR, s1) ->
  reference_temperature s1 = (Return TAMB, s2) ->
  let VOUT := (0.041276 * (TR - TAMB))%float in
  let VREF := VREF_of TAMB in
  let VTOTAL := (VOUT + VREF)%float in
  select_DCOEF VTOTAL = Some DCOEF ->
  temperature_NIST self =
  (Return (power_series math_pow (fun n => nth n DCOEF 0%float) VTOTAL
             (List.length DCOEF)),
   s2).
Proof.
  intros HT HR VOUT VREF VTOTAL Hsel.
  rewrite (temperature_NIST_step _ _ _ _ _ HT HR).
  change (VTOTAL_of TR TAMB) with VTOTAL.
  rewrite Hsel, TEMPERATURE_of_power_series. reflexivity.
Qed.

(** C5: the cold-junction voltage VREF uses, when TAMB >= 0 (TAMB = 0
    included), the constant term, the nine terms in TAMB^1 ... TAMB^9 and
    the exponential correction
    0.1185976 * exp(-0.1183432e-3 * (TAMB - 126.9686)^2); when TAMB < 0
    (for instance TAMB = -0.0001) it uses the ten terms in
    TAMB^1 ... TAMB^10 and nothing else, so [math.exp] plays no part. *)
Theorem cold_junction_branch (T1 T2 : float) :
  (0 <=? T1)%float = true ->
  (T2 <? 0)%float = true ->
  (VREF_of T1
   = (sum_terms (VREF_nonneg_constant
                   :: poly_terms math_pow VREF_nonneg_coefficients T1)
      + exponential_term math_pow math_exp T1)%float
   /\ List.length VREF_nonneg_coefficients = 9%nat)
  /\ (VREF_of T2
      = sum_terms (poly_terms math_pow VREF_neg_coefficients T2)
      /\ List.length VREF_neg_coefficients = 10%nat)
  /\ (VREF_of 0%float
      = (sum_terms (VREF_nonneg_constant
                      :: poly_terms math_pow VREF_nonneg_coefficients 0)
         + exponential_term math_pow math_exp 0)%float)
  /\ (VREF_of (-0.0001)%float
      = sum_terms (poly_terms math_pow VREF_neg_coefficients (-0.0001))).
Proof.
  intros H1 H2.
  assert (H2' : (0 <=? T2)%float = false) by (apply ltb_not_leb; exact H2).
  unfold VREF_of. rewrite H1, H2'.
  repeat split; intros; reflexivity.
Qed.

(** ** Bus traffic *)

Lemma transactions_after_read (self : MAX31855) :
  transactions (spi_device (after_read self))
  = S (transactions (spi_device self)).
Proof. reflexivity. Qed.

(** The frame after the next one is the next entry of the sequence. *)
Lemma next_frame_after_read (self : MAX31855) :
  next_frame (after_read self)
  = wire (spi_device self) (S (transactions (spi_device self))).
Proof. reflexivity. Qed.

Lemma fault_free_false_first_fault (d : bytearray4) :
  fault_free d = false -> exists k, first_fault d = Some k.
Proof.
  intros H. destruct (first_fault d) as [k|] eqn:E; [exists k; reflexivity|].
  apply fault_free_first_fault in E. congruence.
Qed.

(** C8 (as the code has it): every call of [_read] performs exactly one
    bus transaction, fault or not, and its outcome comes from the frame
    that transaction delivers, never from what the buffer held before.  A
    call of [temperature_NIST] whose first frame reports no fault performs
    exactly two transactions: TR comes from the first frame and TAMB from
    the next one.  When the first frame reports a fault the call ends
    after that single transaction. *)
Theorem bus_transactions (internal : bool) (self : MAX31855) :
  (transactions_during (_read internal) self = 1
   /\ data (snd (_read internal self)) = next_frame self
   /\ forall stale,
        fst (_read internal
               {| spi_device := spi_device self; data := stale |})
        = fst (_read internal self))
  /\ (fault_free (next_frame self) = true ->
      transactions_during temperature_NIST self = 2
      /\ snd (temperature_NIST self) = after_read (after_read self)
      /\ (fault_free (next_frame (after_read self)) = true ->
          let TR :=
            (float_of_int (Z.shiftr (thermocouple_word (next_frame self)) 2)
             / 4)%float in
          let TAMB :=
            (float_of_int
               (Z.shiftr (reference_word (next_frame (after_read self))) 4)
             * 0.0625)%float in
          fst (temperature_NIST self)
          = match select_DCOEF (VTOTAL_of TR TAMB) with
            | Some DCOEF => Return (TEMPERATURE_of DCOEF (VTOTAL_of TR TAMB))
            | None =>
                Raise (RuntimeError_format
                         "Total thermoelectric voltage out of range:{}"
                         (VTOTAL_of TR TAMB))
            end))
  /\ (fault_free (next_frame self) = false ->
      transactions_during temperature_NIST self = 1).
Proof.
  split; [|split].
  - unfold transactions_during. rewrite !_read_correct. cbn [fst snd].
    split; [rewrite transactions_after_read; lia|].
    split; [reflexivity|].
    intros stale. rewrite _read_correct. reflexivity.
  - intros Hff. apply fault_free_first_fault in Hff.
    pose proof (temperature_correct self) as HT. rewrite Hff in HT.
    pose proof (reference_temperature_correct (after_read self)) as HR.
    destruct (first_fault (next_frame (after_read self))) as [k|] eqn:E.
    + unfold transactions_during.
      rewrite (temperature_NIST_second_fault _ _ _ _ _ HT HR). cbn [fst snd].
      rewrite !transactions_after_read.
      split; [lia|]. split; [reflexivity|].
      intros Hff2. apply fault_free_first_fault in Hff2. congruence.
    + unfold transactions_during.
      rewrite (temperature_NIST_step _ _ _ _ _ HT HR). cbn [fst snd].
      rewrite !transactions_after_read.
      split; [lia|]. split; reflexivity.
  - intros Hff. apply fault_free_false_first_fault in Hff.
    destruct Hff as [k Hk].
    pose proof (temperature_correct self) as HT. rewrite Hk in HT.
    unfold transactions_during.
    rewrite (temperature_NIST_first_fault _ _ _ HT). cbn [fst snd].
    rewrite transactions_after_read. lia.
Qed.

(** ** Determinism *)

(** C9: the result of [temperature_NIST] is a function of the raw values
    its two frame reads yield: two invocations, on whatever devices, whose
    reads yield the same raw thermocouple value and the same raw reference
    value return the same float or raise the same error, and that result
    is the one computed from TR and TAMB alone. *)
Theorem nist_deterministic
    (self1 self2 s1 s1' s2 s2' : MAX31855) (raw_TR raw_TAMB : Z) :
  _read false self1 = (Return raw_TR, s1) ->
  _read true s1 = (Return raw_TAMB, s1') ->
  _read false self2 = (Return raw_TR, s2) ->
  _read true s2 = (Return raw_TAMB, s2') ->
  fst (temperature_NIST self1) = fst (temperature_NIST self2)
  /\ let TR := (float_of_int raw_TR / 4)%float in
     let TAMB := (float_of_int raw_TAMB * 0.0625)%float in
     fst (temperature_NIST self1)
     = match select_DCOEF (VTOTAL_of TR TAMB) with
       | Some DCOEF => Return (TEMPERATURE_of DCOEF (VTOTAL_of TR TAMB))
       | None =>
           Raise (RuntimeError_format
                    "Total thermoelectric voltage out of range:{}"
                    (VTOTAL_of TR TAMB))
       end.
Proof.
  intros H1 H1' H2 H2'.
  assert (HT : forall self s, _read false self = (Return raw_TR, s) ->
                 temperature self
                 = (Return (float_of_int raw_TR / 4)%float, s))
    by (intros self s H; unfold temperature, bind; rewrite H; reflexivity).
  assert (HR : forall self s, _read true self = (Return raw_TAMB, s) ->
                 reference_temperature self
                 = (Return (float_of_int raw_TAMB * 0.0625)%float, s))
    by (intros self s H; unfold reference_temperature, bind; rewrite H;
        reflexivity).
  rewrite (temperature_NIST_step _ _ _ _ _ (HT _ _ H1) (HR _ _ H1')).
  rewrite (temperature_NIST_step _ _ _ _ _ (HT _ _ H2) (HR _ _ H2')).
  split; reflexivity.
Qed.

(** * Further properties of the driver *)

(** ** Which bits a reading depends on *)

Lemma testbit_7 (u : Z) : 0 <= u < 256 -> Z.testbit u 7 = negb (u <? 128).
Proof.
  intros Hu.
  destruct (Z.ltb_spec u 128) as [Hlt|Hge]; cbn [negb].
  - destruct (Z.eq_dec u 0) as [->|Hnz]; [reflexivity|].
    apply Z.bits_above_log2; [lia|].
    apply Z.log2_lt_pow2; simpl; lia.
  - apply Z.testbit_true; [lia|].
    change (2 ^ 7) with 128.
    assert (Hq : u / 128 = 1)
      by (symmetry; apply (Z.div_unique u 128 1 (u - 128)); lia).
    rewrite Hq. reflexivity.
Qed.

Lemma be_int16_int8 (hi lo : byte) :
  be_int16 hi lo = 256 * int8 hi + byte_val lo.
Proof.
  unfold be_int16, int8.
  pose proof (byte_val_range hi) as Hh.
  pose proof (byte_val_range lo) as Hl.
  rewrite testbit_15 by lia.
  change (2 ^ 16) with 65536.
  destruct (Z.ltb_spec (256 * byte_val hi + byte_val lo) 32768),
    (Z.ltb_spec (byte_val hi) 128); cbn [negb]; lia.
Qed.

(** The shifts keep the high byte as a signed number and the upper bits of
    the low byte. *)
Lemma shiftr_2_be_int16 (hi lo : byte) :
  Z.shiftr (be_int16 hi lo) 2 = 64 * int8 hi + byte_val lo / 4.
Proof.
  rewrite be_int16_int8, Z.shiftr_div_pow2 by lia. change (2 ^ 2) with 4.
  replace (256 * int8 hi + byte_val lo) with (64 * int8 hi * 4 + byte_val lo)
    by lia.
  rewrite Z.div_add_l by lia. reflexivity.
Qed.

Lemma shiftr_4_be_int16 (hi lo : byte) :
  Z.shiftr (be_int16 hi lo) 4 = 16 * int8 hi + byte_val lo / 16.
Proof.
  rewrite be_int16_int8, Z.shiftr_div_pow2 by lia. change (2 ^ 4) with 16.
  replace (256 * int8 hi + byte_val lo) with (16 * int8 hi * 16 + byte_val lo)
    by lia.
  rewrite Z.div_add_l by lia. reflexivity.
Qed.

(** X1: on a frame without fault bits, [_read] returns
    64 * (byte 0 as a signed byte) + (byte 1 without its two low bits) for
    the thermocouple and 16 * (byte 2 as a signed byte) + (byte 3 without
    its four low bits) for the reference; so the thermocouple value does not
    depend on bytes 2 and 3, nor the reference value on bytes 0 and 1. *)
Theorem read_decodes_fields (self : MAX31855) :
  fault_free (next_frame self) = true ->
  fst (_read false self)
  = Return (64 * int8 (data0 (next_frame self))
            + byte_val (data1 (next_frame self)) / 4)
  /\ fst (_read true self)
     = Return (16 * int8 (data2 (next_frame self))
               + byte_val (data3 (next_frame self)) / 16).
Proof.
  intros Hff. apply fault_free_first_fault in Hff.
  rewrite !_read_correct, Hff. cbn [fst].
  unfold thermocouple_word, reference_word.
  rewrite shiftr_2_be_int16, shiftr_4_be_int16. split; reflexivity.
Qed.

(** The three low bits of a byte are clear exactly when it is a multiple
    of eight, and its lowest bit exactly when it is even. *)
Lemma low_three_bits (b : byte) :
  negb (Z.testbit (byte_val b) 0 || Z.testbit (byte_val b) 1
        || Z.testbit (byte_val b) 2)
  = (byte_val b mod 8 =? 0).
Proof. destruct b; reflexivity. Qed.

Lemma low_bit (b : byte) :
  negb (Z.testbit (byte_val b) 0) = (byte_val b mod 2 =? 0).
Proof. destruct b; reflexivity. Qed.

(** X2: [_read] returns a value exactly when byte 3 of the frame is a
    multiple of 8 and byte 1 is even; bit 3 of byte 3 and bit 1 of byte 1
    are not looked at. *)
Theorem read_succeeds_iff (internal : bool) (self : MAX31855) :
  (exists v, fst (_read internal self) = Return v) <->
  byte_val (data3 (next_frame self)) mod 8 = 0
  /\ byte_val (data1 (next_frame self)) mod 2 = 0.
Proof.
  rewrite _read_correct. cbn [fst].
  rewrite <- !Z.eqb_eq, <- low_three_bits, <- low_bit.
  unfold first_fault, all_faults, fault_flag; cbn [find].
  destruct (Z.testbit (byte_val (data3 (next_frame self))) 0),
    (Z.testbit (byte_val (data3 (next_frame self))) 1),
    (Z.testbit (byte_val (data3 (next_frame self))) 2),
    (Z.testbit (byte_val (data1 (next_frame self))) 0);
    cbn [negb orb]; split;
    try (intros [v Hv]; discriminate Hv);
    try (intros [H1 H2]; (discriminate H1 || discriminate H2)).
  - intros _. split; reflexivity.
  - intros _. eexists. reflexivity.
Qed.

(** X3: a frame makes [temperature] fail exactly when it makes
    [reference_temperature] fail, with the same error, and both calls leave
    the driver in the same state. *)
Theorem readings_fail_together (self : MAX31855) (e : exception) :
  (fst (temperature self) = Raise e
   <-> fst (reference_temperature self) = Raise e)
  /\ snd (temperature self) = snd (reference_temperature self).
Proof.
  rewrite temperature_correct, reference_temperature_correct. cbn [fst snd].
  split; [|reflexivity].
  destruct (first_fault (next_frame self)); split; intros H;
    (exact H || discriminate H).
Qed.

(** ** Range, sign and order of the plain readings *)

Lemma temperature_Return_inv (self : MAX31855) (x : float) :
  fst (temperature self) = Return x ->
  first_fault (next_frame self) = None /\ x = TR_of (next_frame self).
Proof.
  rewrite temperature_correct. cbn [fst].
  destruct (first_fault (next_frame self)); intros H; [discriminate H|].
  injection H as <-. split; reflexivity.
Qed.

Lemma reference_temperature_Return_inv (self : MAX31855) (y : float) :
  fst (reference_temperature self) = Return y ->
  first_fault (next_frame self) = None /\ y = TAMB_of (next_frame self).
Proof.
  rewrite reference_temperature_correct. cbn [fst].
  destruct (first_fault (next_frame self)); intros H; [discriminate H|].
  injection H as <-. split; reflexivity.
Qed.

Lemma raw_thermocouple_range (d : bytearray4) :
  -8192 <= Z.shiftr (thermocouple_word d) 2 < 8192.
Proof. apply shiftr_2_range, be_int16_range. Qed.

Lemma raw_reference_range (d : bytearray4) :
  -2048 <= Z.shiftr (reference_word d) 4 < 2048.
Proof. apply shiftr_4_range, be_int16_range. Qed.

Lemma quarter_bounds (k : Z) :
  -8192 <= k < 8192 ->
  (-2048 <=? float_of_int k / 4)%float = true
  /\ (float_of_int k / 4 <=? 2047.75)%float = true.
Proof.
  intros Hk. apply andb_true_iff.
  apply (holds_on_range_sound
           (fun k => ((-2048 <=? float_of_int k / 4)
                      && (float_of_int k / 4 <=? 2047.75))%float)
           (-8192) 16384); [vm_compute; reflexivity|lia].
Qed.

Lemma sixteenth_bounds (k : Z) :
  -2048 <= k < 2048 ->
  (-128 <=? float_of_int k * 0.0625)%float = true
  /\ (float_of_int k * 0.0625 <=? 127.9375)%float = true.
Proof.
  intros Hk. apply andb_true_iff.
  apply (holds_on_range_sound
           (fun k => ((-128 <=? float_of_int k * 0.0625)
                      && (float_of_int k * 0.0625 <=? 127.9375))%float)
           (-2048) 4096); [vm_compute; reflexivity|lia].
Qed.

(** X4: every value [temperature] returns is a finite multiple of 0.25
    between -2048 and 2047.75 degrees, and every value
    [reference_temperature] returns is a finite multiple of 0.0625 between
    -128 and 127.9375 degrees. *)
Theorem readings_in_range (self : MAX31855) (x y : float) :
  fst (temperature self) = Return x ->
  fst (reference_temperature self) = Return y ->
  ((-2048 <=? x)%float = true /\ (x <=? 2047.75)%float = true
   /\ exists k, -8192 <= k < 8192 /\ denotes x (k # 4))
  /\ ((-128 <=? y)%float = true /\ (y <=? 127.9375)%float = true
      /\ exists k, -2048 <= k < 2048 /\ denotes y (k # 16)).
Proof.
  intros Hx Hy.
  apply temperature_Return_inv in Hx. destruct Hx as [_ ->].
  apply reference_temperature_Return_inv in Hy. destruct Hy as [_ ->].
  pose proof (raw_thermocouple_range (next_frame self)) as Ht.
  pose proof (raw_reference_range (next_frame self)) as Hr.
  unfold TR_of, TAMB_of. split.
  - destruct (quarter_bounds _ Ht) as [Hlo Hhi].
    split; [exact Hlo|]. split; [exact Hhi|].
    eexists. split; [exact Ht|]. apply quarter_exact. exact Ht.
  - destruct (sixteenth_bounds _ Hr) as [Hlo Hhi].
    split; [exact Hlo|]. split; [exact Hhi|].
    eexists. split; [exact Hr|]. apply sixteenth_exact. exact Hr.
Qed.

Lemma quarter_sign (k : Z) :
  -8192 <= k < 8192 -> (float_of_int k / 4 <? 0)%float = (k <? 0).
Proof.
  intros Hk. apply eqb_prop.
  apply (holds_on_range_sound
           (fun k => Bool.eqb (float_of_int k / 4 <? 0)%float (k <? 0))
           (-8192) 16384); [vm_compute; reflexivity|lia].
Qed.

Lemma sixteenth_sign (k : Z) :
  -2048 <= k < 2048 -> (float_of_int k * 0.0625 <? 0)%float = (k <? 0).
Proof.
  intros Hk. apply eqb_prop.
  apply (holds_on_range_sound
           (fun k => Bool.eqb (float_of_int k * 0.0625 <? 0)%float (k <? 0))
           (-2048) 4096); [vm_compute; reflexivity|lia].
Qed.

(** A shifted word is negative exactly when the top bit of its high byte
    is set. *)
Lemma shiftr_2_sign (hi lo : byte) :
  (Z.shiftr (be_int16 hi lo) 2 <? 0) = Z.testbit (byte_val hi) 7.
Proof.
  pose proof (byte_val_range hi) as Hh.
  pose proof (byte_val_range lo) as Hl.
  rewrite shiftr_2_be_int16, testbit_7 by assumption. unfold int8.
  assert (Hq : 0 <= byte_val lo / 4 < 64)
    by (split; [apply Z.div_pos|apply Z.div_lt_upper_bound]; lia).
  destruct (Z.ltb_spec (byte_val hi) 128); cbn [negb];
    [apply Z.ltb_ge|apply Z.ltb_lt]; lia.
Qed.

Lemma shiftr_4_sign (hi lo : byte) :
  (Z.shiftr (be_int16 hi lo) 4 <? 0) = Z.testbit (byte_val hi) 7.
Proof.
  pose proof (byte_val_range hi) as Hh.
  pose proof (byte_val_range lo) as Hl.
  rewrite shiftr_4_be_int16, testbit_7 by assumption. unfold int8.
  assert (Hq : 0 <= byte_val lo / 16 < 16)
    by (split; [apply Z.div_pos|apply Z.div_lt_upper_bound]; lia).
  destruct (Z.ltb_spec (byte_val hi) 128); cbn [negb];
    [apply Z.ltb_ge|apply Z.ltb_lt]; lia.
Qed.

(** X5: a returned temperature is below zero exactly when bit 7 of byte 0
    of the frame is set, and a returned reference temperature exactly when
    bit 7 of byte 2 is set: the sign of the word survives the shift and the
    scaling. *)
Theorem readings_sign (self : MAX31855) (x y : float) :
  fst (temperature self) = Return x ->
  fst (reference_temperature self) = Return y ->
  (x <? 0)%float = Z.testbit (byte_val (data0 (next_frame self))) 7
  /\ (y <? 0)%float = Z.testbit (byte_val (data2 (next_frame self))) 7.
Proof.
  intros Hx Hy.
  apply temperature_Return_inv in Hx. destruct Hx as [_ ->].
  apply reference_temperature_Return_inv in Hy. destruct Hy as [_ ->].
  unfold TR_of, TAMB_of.
  rewrite quarter_sign by apply raw_thermocouple_range.
  rewrite sixteenth_sign by apply raw_reference_range.
  unfold thermocouple_word, reference_word.
  rewrite shiftr_2_sign, shiftr_4_sign. split; reflexivity.
Qed.

Lemma ltb_irrefl (x : float) : (x <? x)%float = false.
Proof.
  rewrite FloatAxioms.ltb_spec. unfold SFltb.
  destruct (Prim2SF x) as [[]|[]| |[] m e]; try reflexivity;
    cbn [SFcompare]; change (Pos.compare_cont Eq) with Pos.compare;
    rewrite Z.compare_refl, Pos.compare_refl; reflexivity.
Qed.

(** A function on integers that increases at every step increases. *)
Lemma adjacent_to_monotone (f : Z -> float) (lo n : Z) :
  holds_on_range (fun k => (f k <? f (k + 1)%Z)%float) lo n = true ->
  forall a b, lo <= a -> a < b -> b <= lo + n -> (f a <? f b)%float = true.
Proof.
  intros Hadj a b Ha Hab Hb.
  pose proof (holds_on_range_sound _ _ _ Hadj) as Hstep. cbv beta in Hstep.
  replace b with (a + 1 + Z.of_nat (Z.to_nat (b - a - 1))) in * by lia.
  induction (Z.to_nat (b - a - 1)) as [|d IH].
  - rewrite Z.add_0_r. apply Hstep. lia.
  - apply ltb_ltb_trans with (f (a + 1 + Z.of_nat d)); [apply IH; lia|].
    replace (a + 1 + Z.of_nat (S d)) with (a + 1 + Z.of_nat d + 1) by lia.
    apply Hstep. lia.
Qed.

Lemma quarter_monotone (a b : Z) :
  -8192 <= a -> a < b -> b < 8192 ->
  (float_of_int a / 4 <? float_of_int b / 4)%float = true.
Proof.
  intros Ha Hab Hb.
  apply (adjacent_to_monotone (fun k => (float_of_int k / 4)%float)
           (-8192) 16383); [vm_compute; reflexivity|lia..].
Qed.

Lemma sixteenth_monotone (a b : Z) :
  -2048 <= a -> a < b -> b < 2048 ->
  (float_of_int a * 0.0625 <? float_of_int b * 0.0625)%float = true.
Proof.
  intros Ha Hab Hb.
  apply (adjacent_to_monotone (fun k => (float_of_int k * 0.0625)%float)
           (-2048) 4095); [vm_compute; reflexivity|lia..].
Qed.

(** X6: the readings preserve and reflect the order of the raw values: of
    two frames, the one with the smaller shifted thermocouple word gives the
    smaller temperature, and conversely; likewise for the reference word.
    Distinct raw values therefore never give the same reading. *)
Theorem readings_order
    (self1 self2 : MAX31855) (x1 x2 y1 y2 : float) :
  fst (temperature self1) = Return x1 ->
  fst (temperature self2) = Return x2 ->
  fst (reference_temperature self1) = Return y1 ->
  fst (reference_temperature self2) = Return y2 ->
  (Z.shiftr (thermocouple_word (next_frame self1)) 2
   < Z.shiftr (thermocouple_word (next_frame self2)) 2
   <-> (x1 <? x2)%float = true)
  /\ (Z.shiftr (reference_word (next_frame self1)) 4
      < Z.shiftr (reference_word (next_frame self2)) 4
      <-> (y1 <? y2)%float = true).
Proof.
  intros Hx1 Hx2 Hy1 Hy2.
  apply temperature_Return_inv in Hx1, Hx2.
  apply reference_temperature_Return_inv in Hy1, Hy2.
  destruct Hx1 as [_ ->], Hx2 as [_ ->], Hy1 as [_ ->], Hy2 as [_ ->].
  pose proof (raw_thermocouple_range (next_frame self1)) as Ht1.
  pose proof (raw_thermocouple_range (next_frame self2)) as Ht2.
  pose proof (raw_reference_range (next_frame self1)) as Hr1.
  pose proof (raw_reference_range (next_frame self2)) as Hr2.
  unfold TR_of, TAMB_of. split; split.
  - intros Hlt. apply quarter_monotone; lia.
  - intros H.
    destruct (Z.lt_trichotomy
                (Z.shiftr (thermocouple_word (next_frame self1)) 2)
                (Z.shiftr (thermocouple_word (next_frame self2)) 2))
      as [Hlt|[Heq|Hgt]]; [exact Hlt| |].
    + rewrite Heq, ltb_irrefl in H. discriminate H.
    + assert (Hrev := quarter_monotone _ _ (proj1 Ht2) Hgt (proj2 Ht1)).
      pose proof (ltb_ltb_trans _ _ _ H Hrev) as Hxx.
      rewrite ltb_irrefl in Hxx. discriminate Hxx.
  - intros Hlt. apply sixteenth_monotone; lia.
  - intros H.
    destruct (Z.lt_trichotomy
                (Z.shiftr (reference_word (next_frame self1)) 4)
                (Z.shiftr (reference_word (next_frame self2)) 4))
      as [Hlt|[Heq|Hgt]]; [exact Hlt| |].
    + rewrite Heq, ltb_irrefl in H. discriminate H.
    + assert (Hrev := sixteenth_monotone _ _ (proj1 Hr2) Hgt (proj2 Hr1)).
      pose proof (ltb_ltb_trans _ _ _ H Hrev) as Hxx.
      rewrite ltb_irrefl in Hxx. discriminate Hxx.
Qed.

(** ** The three bands as a partition *)

Lemma SFleb_leb_trans (a b c : spec_float) :
  SFleb a b = true -> SFleb b c = true -> SFleb a c = true.
Proof.
  unfold SFleb.
  destruct a as [[]|[]| |[] m1 e1], b as [[]|[]| |[] m2 e2],
    c as [[]|[]| |[] m3 e3];
    cbn [SFcompare]; try (intros; (reflexivity || discriminate));
    change (Pos.compare_cont Eq) with Pos.compare;
    lex_order e1 e2 e3 m1 m2 m3.
Qed.

Lemma leb_leb_trans (x y z : float) :
  (x <=? y)%float = true -> (y <=? z)%float = true -> (x <=? z)%float = true.
Proof. rewrite !FloatAxioms.leb_spec. apply SFleb_leb_trans. Qed.

Lemma ltb_leb (x y : float) :
  (x <? y)%float = true -> (x <=? y)%float = true.
Proof.
  rewrite FloatAxioms.ltb_spec, FloatAxioms.leb_spec. unfold SFltb, SFleb.
  destruct (SFcompare (Prim2SF x) (Prim2SF y)) as [[]|]; congruence.
Qed.

(** Two floats that are not NaN compare. *)
Lemma SFcompare_defined (x y : spec_float) :
  SFleb x x = true -> SFleb y y = true -> SFcompare x y <> None.
Proof.
  unfold SFleb.
  destruct x as [[]|[]| |[] m1 e1], y as [[]|[]| |[] m2 e2];
    cbn [SFcompare]; intros Hx Hy; discriminate.
Qed.

Lemma SFleb_refl_l (a x : spec_float) : SFleb a x = true -> SFleb x x = true.
Proof.
  unfold SFleb.
  destruct a as [[]|[]| |[] m1 e1], x as [[]|[]| |[] m2 e2];
    cbn [SFcompare]; try (intros; (reflexivity || discriminate));
    change (Pos.compare_cont Eq) with Pos.compare;
    rewrite Z.compare_refl, Pos.compare_refl; reflexivity.
Qed.

(** Above a float that is at most [x], whatever [x] is not at most lies
    strictly below [x]. *)
Lemma leb_false_ltb (a x b : float) :
  (a <=? x)%float = true -> (b <=? b)%float = true ->
  (x <=? b)%float = false -> (b <? x)%float = true.
Proof.
  rewrite FloatAxioms.ltb_spec, !FloatAxioms.leb_spec.
  intros Ha Hb Hxb. apply SFleb_refl_l in Ha.
  pose proof (SFcompare_defined _ _ Ha Hb) as Hdef.
  unfold SFltb, SFleb in *.
  rewrite (SFcompare_swap (Prim2SF x) (Prim2SF b)).
  destruct (SFcompare (Prim2SF x) (Prim2SF b)) as [[]|];
    cbn [option_map CompOpp]; congruence.
Qed.

Lemma in_band_in_range (V : float) :
  in_band_1 V || in_band_2 V || in_band_3 V = true -> in_range V = true.
Proof.
  unfold in_band_1, in_band_2, in_band_3, in_range. intros H.
  apply orb_true_iff in H. destruct H as [H|H];
    [apply orb_true_iff in H; destruct H as [H|H]|];
    apply andb_true_iff in H; destruct H as [Hlo Hhi];
    apply andb_true_iff; split.
  - exact Hlo.
  - apply leb_leb_trans with 0%float; [exact Hhi|reflexivity].
  - apply ltb_leb. apply ltb_ltb_trans with 0%float; [reflexivity|exact Hlo].
  - apply leb_leb_trans with 20.644%float; [exact Hhi|reflexivity].
  - apply ltb_leb.
    apply ltb_ltb_trans with 20.644%float; [reflexivity|exact Hlo].
  - exact Hhi.
Qed.

Lemma in_range_in_band (V : float) :
  in_range V = true -> in_band_1 V || in_band_2 V || in_band_3 V = true.
Proof.
  unfold in_band_1, in_band_2, in_band_3, in_range. intros H.
  apply andb_true_iff in H. destruct H as [Hlo Hhi]. rewrite Hlo, Hhi.
  destruct (V <=? 0)%float eqn:E0; [reflexivity|].
  rewrite (leb_false_ltb _ V 0%float Hlo eq_refl E0).
  destruct (V <=? 20.644)%float eqn:E1; [reflexivity|].
  rewrite (leb_false_ltb _ V 20.644%float Hlo eq_refl E1). reflexivity.
Qed.

(** No table is selected exactly when VTOTAL is outside the interval. *)
Lemma select_DCOEF_None_iff (V : float) :
  select_DCOEF V = None <-> in_range V = false.
Proof.
  split.
  - intros Hsel. destruct (in_range V) eqn:Er; [|reflexivity].
    apply in_range_in_band in Er.
    destruct (in_band_1 V) eqn:E1;
      [rewrite (select_band_1 _ E1) in Hsel; discriminate Hsel|].
    destruct (in_band_2 V) eqn:E2;
      [rewrite (select_band_2 _ E2) in Hsel; discriminate Hsel|].
    destruct (in_band_3 V) eqn:E3;
      [rewrite (select_band_3 _ E3) in Hsel; discriminate Hsel|].
    discriminate Er.
  - intros Hr.
    destruct (in_band_1 V) eqn:E1;
      [rewrite in_band_in_range in Hr by (rewrite E1; reflexivity);
       discriminate Hr|].
    destruct (in_band_2 V) eqn:E2;
      [rewrite in_band_in_range in Hr by (rewrite E1, E2; reflexivity);
       discriminate Hr|].
    destruct (in_band_3 V) eqn:E3;
      [rewrite in_band_in_range in Hr by (rewrite E1, E2, E3; reflexivity);
       discriminate Hr|].
    apply select_outside; assumption.
Qed.

(** X7: the three bands are pairwise disjoint and together they are the
    whole interval from -5.891 to 54.886, so the order of the [elif] chain
    plays no part, and no table is selected exactly when VTOTAL is outside
    that interval (or is not a number). *)
Theorem bands_partition (V : float) :
  (in_band_1 V && in_band_2 V = false
   /\ in_band_1 V && in_band_3 V = false
   /\ in_band_2 V && in_band_3 V = false)
  /\ in_range V = in_band_1 V || in_band_2 V || in_band_3 V
  /\ (select_DCOEF V = None <-> in_range V = false)
  /\ (select_DCOEF V = Some DCOEF_1 <-> in_band_1 V = true)
  /\ (select_DCOEF V = Some DCOEF_2 <-> in_band_2 V = true)
  /\ (select_DCOEF V = Some DCOEF_3 <-> in_band_3 V = true).
Proof.
  assert (H12 : in_band_1 V = true -> in_band_2 V = false).
  { unfold in_band_1, in_band_2. intros H.
    apply andb_true_iff in H. destruct H as [_ Hhi].
    rewrite (leb_not_ltb _ _ Hhi). reflexivity. }
  assert (H13 : in_band_1 V = true -> in_band_3 V = false).
  { unfold in_band_1, in_band_3. intros H.
    apply andb_true_iff in H. destruct H as [_ Hhi].
    destruct (20.644 <? V)%float eqn:E; [float_absurd|reflexivity]. }
  assert (H23 : in_band_2 V = true -> in_band_3 V = false).
  { unfold in_band_2, in_band_3. intros H.
    apply andb_true_iff in H. destruct H as [_ Hhi].
    rewrite (leb_not_ltb _ _ Hhi). reflexivity. }
  assert (Hrange : in_range V = in_band_1 V || in_band_2 V || in_band_3 V).
  { destruct (in_range V) eqn:E.
    - symmetry. apply in_range_in_band. exact E.
    - destruct (in_band_1 V || in_band_2 V || in_band_3 V) eqn:E';
        [|reflexivity].
      apply in_band_in_range in E'. congruence. }
  assert (HD12 : DCOEF_1 <> DCOEF_2) by discriminate.
  assert (HD13 : DCOEF_1 <> DCOEF_3) by discriminate.
  assert (HD23 : DCOEF_2 <> DCOEF_3) by discriminate.
  rewrite Hrange.
  destruct (in_band_1 V) eqn:E1; [|destruct (in_band_2 V) eqn:E2;
                                    [|destruct (in_band_3 V) eqn:E3]].
  - rewrite (H12 eq_refl), (H13 eq_refl), (select_band_1 _ E1).
    cbn [andb orb]. repeat split; intros; congruence.
  - rewrite (H23 eq_refl), (select_band_2 _ E2).
    cbn [andb orb]. repeat split; intros; congruence.
  - rewrite (select_band_3 _ E3).
    cbn [andb orb]. repeat split; intros; congruence.
  - rewrite (select_outside _ E1 E2 E3).
    cbn [andb orb]. repeat split; intros; congruence.
Qed.

(** ** The compensated reading, frame by frame *)

(** [temperature_NIST] in terms of the two frames it reads. *)
Lemma temperature_NIST_correct (self : MAX31855) :
  temperature_NIST self =
  match first_fault (next_frame self) with
  | Some k => (Raise (FaultError k), after_read self)
  | None =>
      match first_fault (next_frame (after_read self)) with
      | Some k => (Raise (FaultError k), after_read (after_read self))
      | None =>
          let VTOTAL := VTOTAL_of (TR_of (next_frame self))
                          (TAMB_of (next_frame (after_read self))) in
          (match select_DCOEF VTOTAL with
           | Some DCOEF => Return (TEMPERATURE_of DCOEF VTOTAL)
           | None =>
               Raise (RuntimeError_format
                        "Total thermoelectric voltage out of range:{}"
                        VTOTAL)
           end, after_read (after_read self))
      end
  end.
Proof.
  pose proof (temperature_correct self) as HT.
  pose proof (reference_temperature_correct (after_read self)) as HR.
  destruct (first_fault (next_frame self)) as [k|].
  - exact (temperature_NIST_first_fault _ _ _ HT).
  - destruct (first_fault (next_frame (after_read self))) as [k|].
    + exact (temperature_NIST_second_fault _ _ _ _ _ HT HR).
    + exact (temperature_NIST_step _ _ _ _ _ HT HR).
Qed.

(** X8: [temperature_NIST] returns a number exactly when neither of the
    two frames it reads has a fault bit set and the total voltage computed
    from them lies between -5.891 and 54.886 millivolts. *)
Theorem nist_returns_iff (self : MAX31855) :
  (exists x, fst (temperature_NIST self) = Return x) <->
  fault_free (next_frame self) = true
  /\ fault_free (next_frame (after_read self)) = true
  /\ in_range (VTOTAL_of (TR_of (next_frame self))
                 (TAMB_of (next_frame (after_read self)))) = true.
Proof.
  rewrite temperature_NIST_correct, !fault_free_first_fault.
  destruct (first_fault (next_frame self)) as [k|]; cbn [fst].
  - split; [intros [x H]; discriminate H|intros (H & _); discriminate H].
  - destruct (first_fault (next_frame (after_read self))) as [k|]; cbn [fst].
    + split; [intros [x H]; discriminate H|intros (_ & H & _); discriminate H].
    + cbv zeta.
      set (V := VTOTAL_of (TR_of (next_frame self))
                  (TAMB_of (next_frame (after_read self)))).
      pose proof (select_DCOEF_None_iff V) as Hnone.
      destruct (select_DCOEF V) as [D|].
      * split; [|intros _; eexists; reflexivity].
        intros _. repeat split.
        destruct (in_range V); [reflexivity|].
        discriminate (proj2 Hnone eq_refl).
      * split; [intros [x H]; discriminate H|].
        intros (_ & _ & Hr). rewrite (proj1 Hnone eq_refl) in Hr.
        discriminate Hr.
Qed.

(** X9: [temperature_NIST] raises nothing but a fault of the first frame,
    a fault of the second frame after a fault-free first one, or the
    out-of-range error, which carries the total voltage of two fault-free
    frames and is raised only when that voltage is outside the bands. *)
Theorem nist_raises_only (self : MAX31855) (e : exception) :
  fst (temperature_NIST self) = Raise e ->
  (exists k, e = FaultError k /\ first_fault (next_frame self) = Some k)
  \/ (exists k, e = FaultError k
                /\ fault_free (next_frame self) = true
                /\ first_fault (next_frame (after_read self)) = Some k)
  \/ (e = RuntimeError_format
            "Total thermoelectric voltage out of range:{}"
            (VTOTAL_of (TR_of (next_frame self))
               (TAMB_of (next_frame (after_read self))))
      /\ fault_free (next_frame self) = true
      /\ fault_free (next_frame (after_read self)) = true
      /\ in_range (VTOTAL_of (TR_of (next_frame self))
                     (TAMB_of (next_frame (after_read self)))) = false).
Proof.
  rewrite temperature_NIST_correct.
  destruct (first_fault (next_frame self)) as [k|] eqn:E1; cbn [fst].
  - intros H. injection H as <-. left. exists k. split; reflexivity.
  - apply fault_free_first_fault in E1.
    destruct (first_fault (next_frame (after_read self))) as [k|] eqn:E2;
      cbn [fst].
    + intros H. injection H as <-. right. left. exists k.
      split; [reflexivity|]. split; [exact E1|reflexivity].
    + apply fault_free_first_fault in E2. cbv zeta.
      set (V := VTOTAL_of (TR_of (next_frame self))
                  (TAMB_of (next_frame (after_read self)))).
      pose proof (select_DCOEF_None_iff V) as Hnone.
      destruct (select_DCOEF V) as [D|]; intros H; [discriminate H|].
      injection H as <-. right. right.
      split; [reflexivity|]. split; [exact E1|]. split; [exact E2|].
      apply Hnone. reflexivity.
Qed.

Lemma sixteenth_nonneg (k : Z) :
  -2048 <= k < 2048 -> (0 <=? float_of_int k * 0.0625)%float = negb (k <? 0).
Proof.
  intros Hk. apply eqb_prop.
  apply (holds_on_range_sound
           (fun k => Bool.eqb (0 <=? float_of_int k * 0.0625)%float
                       (negb (k <? 0)))
           (-2048) 4096); [vm_compute; reflexivity|lia].
Qed.

(** The sign bit of the reference word picks the cold-junction branch. *)
Lemma VREF_of_TAMB_of (d : bytearray4) :
  VREF_of (TAMB_of d)
  = if Z.testbit (byte_val (data2 d)) 7
    then VREF_neg (TAMB_of d)
    else VREF_nonneg (TAMB_of d).
Proof.
  unfold VREF_of. unfold TAMB_of at 1.
  rewrite sixteenth_nonneg by apply raw_reference_range.
  unfold reference_word. rewrite shiftr_4_sign.
  destruct (Z.testbit (byte_val (data2 d)) 7); reflexivity.
Qed.

(** X10: in [temperature_NIST], with two fault-free frames, the
    cold-junction voltage comes from the [TAMB < 0] polynomial exactly when
    bit 7 of byte 2 of the second frame is set, and from the [TAMB >= 0]
    polynomial with its exponential term otherwise. *)
Theorem nist_branch_by_sign_bit (self : MAX31855) :
  fault_free (next_frame self) = true ->
  fault_free (next_frame (after_read self)) = true ->
  let TR := TR_of (next_frame self) in
  let TAMB := TAMB_of (next_frame (after_read self)) in
  let VREF :=
    if Z.testbit (byte_val (data2 (next_frame (after_read self)))) 7
    then VREF_neg TAMB
    else VREF_nonneg TAMB in
  let VTOTAL := (0.041276 * (TR - TAMB) + VREF)%float in
  fst (temperature_NIST self)
  = match select_DCOEF VTOTAL with
    | Some DCOEF => Return (TEMPERATURE_of DCOEF VTOTAL)
    | None =>
        Raise (RuntimeError_format
                 "Total thermoelectric voltage out of range:{}" VTOTAL)
    end.
Proof.
  intros H1 H2 TR TAMB VREF VTOTAL.
  apply fault_free_first_fault in H1, H2.
  rewrite temperature_NIST_correct, H1, H2. cbv zeta. cbn [fst].
  assert (HV : VTOTAL_of (TR_of (next_frame self))
                 (TAMB_of (next_frame (after_read self))) = VTOTAL).
  { unfold VTOTAL_of, VOUT_of. rewrite VREF_of_TAMB_of. reflexivity. }
  rewrite HV. destruct (select_DCOEF VTOTAL); reflexivity.
Qed.

(** ** The buffer *)

Lemma holds_last_frame_after_read (self : MAX31855) :
  holds_last_frame self (after_read self).
Proof.
  unfold holds_last_frame, after_read, readinto; cbn.
  repeat split. lia.
Qed.

Lemma holds_last_frame_trans (s0 s1 s2 : MAX31855) :
  holds_last_frame s0 s1 -> holds_last_frame s1 s2 -> holds_last_frame s0 s2.
Proof.
  unfold holds_last_frame. intros (Hw1 & Ht1 & _) (Hw2 & Ht2 & Hd2).
  repeat split; [congruence|lia|exact Hd2].
Qed.

(** X11: every call of [_read], [temperature], [reference_temperature] or
    [temperature_NIST], whether it returns or raises, leaves the frames of
    the chip as they were, has served at least one more bus transaction,
    and leaves in the buffer the frame of the last transaction served. *)
Theorem calls_keep_last_frame (internal : bool) (self : MAX31855) :
  holds_last_frame self (snd (_read internal self))
  /\ holds_last_frame self (snd (temperature self))
  /\ holds_last_frame self (snd (reference_temperature self))
  /\ holds_last_frame self (snd (temperature_NIST self)).
Proof.
  rewrite _read_correct, temperature_correct, reference_temperature_correct,
    temperature_NIST_correct.
  pose proof (holds_last_frame_after_read self) as H1.
  pose proof (holds_last_frame_after_read (after_read self)) as H2.
  pose proof (holds_last_frame_trans _ _ _ H1 H2) as H12.
  cbn [snd]. repeat split; try exact H1;
    destruct (first_fault (next_frame self));
    try destruct (first_fault (next_frame (after_read self)));
    cbn [snd]; first [apply H1 | apply H12].
Qed.

End NIST.

(** ** Runs on concrete frames *)

Lemma plain_readings_exact_run :
  (fst (temperature (device frame_205_25 frame_205_25)) = Return 205%float
   /\ denotes 205%float (820 # 4))
  /\ (fst (reference_temperature (device frame_205_25 frame_205_25))
      = Return 25%float
      /\ denotes 25%float (400 # 16)).
Proof.
  exact (plain_readings_exact (device frame_205_25 frame_205_25) eq_refl).
Defined.

Lemma read_fails_on_fault_bit_run :
  _read false (device frame_short_ground frame_205_25)
  = (Raise (RuntimeError "short circuit to ground"),
     after_read (device frame_short_ground frame_205_25)).
Proof.
  destruct (read_fails_on_fault_bit false
              (device frame_short_ground frame_205_25) ShortToGround eq_refl)
    as [_ Honly].
  apply Honly. intros k' Hne.
  destruct k'; first [reflexivity | exfalso; apply Hne; reflexivity].
Defined.

Lemma concrete_scenarios_run :
  fst (temperature (device frame_205_0 frame_205_0)) = Return 205%float
  /\ fst (reference_temperature (device frame_205_0 frame_205_0))
     = Return 0%float
  /\ fst (reference_temperature (device frame_open frame_205_0))
     = Raise (RuntimeError "thermocouple not connected").
Proof.
  destruct (concrete_scenarios
              (device frame_205_0 frame_205_0) (device frame_open frame_205_0)
              Byte.x0c Byte.xd0 Byte.x19 eq_refl eq_refl)
    as [(_ & _ & HT & _ & _ & HR) Hopen].
  split; [exact HT|]. split; [exact HR|].
  rewrite Hopen. reflexivity.
Defined.

Lemma faults_propagate_run :
  temperature_NIST libm_pow libm_exp (device frame_open frame_205_25)
  = (Raise (RuntimeError "thermocouple not connected"),
     after_read (device frame_open frame_205_25))
  /\ temperature_NIST libm_pow libm_exp (device frame_205_25 frame_open)
     = (Raise (RuntimeError "thermocouple not connected"),
        after_read (after_read (device frame_205_25 frame_open))).
Proof.
  split.
  - exact (proj2 (proj2 (proj1
      (faults_propagate libm_pow libm_exp false
         (device frame_open frame_205_25) _ _ eq_refl)))).
  - exact (proj1 (proj2
      (faults_propagate libm_pow libm_exp true
         (after_read (device frame_205_25 frame_open)) _ _ eq_refl))
      (device frame_205_25 frame_open) 205%float eq_refl).
Defined.

Lemma inverse_table_selection_run :
  temperature_NIST libm_pow libm_exp (device frame_205_25 frame_205_25)
  = (Return (TEMPERATURE_of libm_pow DCOEF_2
               (VTOTAL_of libm_pow libm_exp 205 25)),
     after_read (after_read (device frame_205_25 frame_205_25))).
Proof.
  destruct (inverse_table_selection libm_pow libm_exp
              (device frame_205_25 frame_205_25)
              (after_read (device frame_205_25 frame_205_25))
              (after_read (after_read (device frame_205_25 frame_205_25)))
              205%float 25%float eq_refl eq_refl)
    as [(_ & Hband2 & _) _].
  apply Hband2. vm_compute. reflexivity.
Defined.

Lemma nist_power_series_run :
  temperature_NIST libm_pow libm_exp (device frame_205_25 frame_205_25)
  = (Return (power_series libm_pow (fun n => nth n DCOEF_2 0%float)
               (0.041276 * (205 - 25) + VREF_of libm_pow libm_exp 25)%float
               10),
     after_read (after_read (device frame_205_25 frame_205_25))).
Proof.
  apply (nist_power_series libm_pow libm_exp
           (device frame_205_25 frame_205_25)
           (after_read (device frame_205_25 frame_205_25))
           (after_read (after_read (device frame_205_25 frame_205_25)))
           205%float 25%float DCOEF_2 eq_refl eq_refl).
  vm_compute. reflexivity.
Defined.

Lemma cold_junction_branch_run :
  VREF_of libm_pow libm_exp 0%float
  = (sum_terms (VREF_nonneg_constant
                  :: poly_terms libm_pow VREF_nonneg_coefficients 0)
     + exponential_term libm_pow libm_exp 0)%float
  /\ VREF_of libm_pow libm_exp (-0.0001)%float
     = sum_terms (poly_terms libm_pow VREF_neg_coefficients (-0.0001)).
Proof.
  destruct (cold_junction_branch libm_pow libm_exp 0%float (-0.0001)%float
              eq_refl eq_refl)
    as [[Hnonneg _] [[Hneg _] _]].
  split; [exact Hnonneg|exact Hneg].
Defined.

Lemma bus_transactions_run :
  transactions_during (_read false) (device frame_open frame_205_25) = 1
  /\ transactions_during (temperature_NIST libm_pow libm_exp)
       (device frame_205_25 frame_205_25) = 2
  /\ transactions_during (temperature_NIST libm_pow libm_exp)
       (device frame_205_25 frame_open) = 2.
Proof.
  split; [|split].
  - exact (proj1 (proj1
      (bus_transactions libm_pow libm_exp false
         (device frame_open frame_205_25)))).
  - exact (proj1 (proj1 (proj2
      (bus_transactions libm_pow libm_exp false
         (device frame_205_25 frame_205_25))) eq_refl)).
  - exact (proj1 (proj1 (proj2
      (bus_transactions libm_pow libm_exp false
         (device frame_205_25 frame_open))) eq_refl)).
Defined.

(** A call of [temperature_NIST] whose first frame reports a fault performs
    one bus transaction, not two: the fault is raised before TAMB is
    read. *)
Lemma nist_one_transaction_on_fault :
  transactions_during (temperature_NIST libm_pow libm_exp)
    (device frame_open frame_205_25) = 1
  /\ transactions_during (temperature_NIST libm_pow libm_exp)
       (device frame_open frame_205_25) <> 2.
Proof.
  split; [reflexivity|].
  change (transactions_during (temperature_NIST libm_pow libm_exp)
            (device frame_open frame_205_25)) with 1.
  discriminate.
Qed.

Lemma nist_deterministic_run :
  fst (temperature_NIST libm_pow libm_exp
         (device frame_205_25 frame_205_25))
  = fst (temperature_NIST libm_pow libm_exp
           (device frame_same_raw_TR frame_same_raw_TAMB)).
Proof.
  exact (proj1
    (nist_deterministic libm_pow libm_exp
       (device frame_205_25 frame_205_25)
       (device frame_same_raw_TR frame_same_raw_TAMB)
       _ _ _ _ 820 400 eq_refl eq_refl eq_refl eq_refl)).
Defined.

(** ** Further runs on concrete frames *)

Lemma read_decodes_fields_run :
  fst (_read false (device frame_negative frame_205_25)) = Return (-1)
  /\ fst (_read true (device frame_negative frame_205_25)) = Return (-256).
Proof.
  exact (read_decodes_fields (device frame_negative frame_205_25) eq_refl).
Defined.

Lemma readings_in_range_run :
  ((-2048 <=? 2047.75)%float = true /\ (2047.75 <=? 2047.75)%float = true
   /\ exists k, -8192 <= k < 8192 /\ denotes 2047.75%float (k # 4))
  /\ ((-128 <=? 25)%float = true /\ (25 <=? 127.9375)%float = true
      /\ exists k, -2048 <= k < 2048 /\ denotes 25%float (k # 16)).
Proof.
  exact (readings_in_range (device frame_hot frame_205_25)
           2047.75%float 25%float eq_refl eq_refl).
Defined.

Lemma readings_sign_run :
  ((-0.25) <? 0)%float = true /\ ((-16) <? 0)%float = true.
Proof.
  exact (readings_sign (device frame_negative frame_205_25)
           (-0.25)%float (-16)%float eq_refl eq_refl).
Defined.

Lemma readings_order_run :
  (-1 < 820 <-> ((-0.25) <? 205)%float = true)
  /\ (-256 < 400 <-> ((-16) <? 25)%float = true).
Proof.
  exact (readings_order
           (device frame_negative frame_205_25)
           (device frame_205_25 frame_205_25)
           (-0.25)%float 205%float (-16)%float 25%float
           eq_refl eq_refl eq_refl eq_refl).
Defined.

Lemma nist_raises_only_run :
  fault_free frame_hot = true
  /\ fault_free frame_205_25 = true
  /\ in_range (VTOTAL_of libm_pow libm_exp
                 (TR_of frame_hot) (TAMB_of frame_205_25)) = false.
Proof.
  destruct (nist_raises_only libm_pow libm_exp
              (device frame_hot frame_205_25)
              (RuntimeError_format
                 "Total thermoelectric voltage out of range:{}"
                 (VTOTAL_of libm_pow libm_exp
                    (TR_of frame_hot) (TAMB_of frame_205_25)))
              eq_refl)
    as [(k & Hk & _)|[(k & Hk & _)|(_ & H)]].
  - destruct k; discriminate Hk.
  - destruct k; discriminate Hk.
  - exact H.
Defined.

Lemma nist_branch_by_sign_bit_run :
  fst (temperature_NIST libm_pow libm_exp
         (device frame_negative frame_negative))
  = Return (TEMPERATURE_of libm_pow DCOEF_2
              (0.041276 * (-0.25 - -16)
               + VREF_neg libm_pow (-16))%float).
Proof.
  exact (nist_branch_by_sign_bit libm_pow libm_exp
           (device frame_negative frame_negative) eq_refl eq_refl).
Defined.
